(** * webflow-zoho: the Vercel webhook that forwards Webflow forms to Zoho CRM

    A shallow embedding of [api/webhook.js] (the fetch-based handler) and
    the properties of its token cache, token provider, lead submitter,
    lead mapper, validator and HTTP handler.

    Conventions of the embedding:
    - JavaScript values that come out of [JSON.parse] are the inductive
      [value]; numbers are restricted to integers (instants in
      milliseconds, lifetimes in seconds), with [NaN] for the result of
      arithmetic on something that is not a number;
    - strings are sequences of code units below 256;
    - the module-level [accessTokenCache], the clock behind [Date.now()]
      and the list of [fetch] calls made so far are the fields of an
      explicit [State], threaded through a state-and-exception monad;
    - [console.log] / [console.error] are not modelled. *)

From stdpp Require Import base strings list gmap pretty.
From Stdlib Require Import ZArith Ascii String Lia.

Set Warnings "-register-all".

Local Open Scope string_scope.
Local Open Scope Z_scope.

(** ** JavaScript values *)

Module Js.

(** Numbers: the integers, computed exactly, and NaN.  A JavaScript
    number is a double, so [mul], [add] and [sub] below are the
    language's on integers whose operands and result are safe
    ([isSafeInteger]); statements that evaluate them carry that bound. *)
Inductive number :=
| Int (z : Z)
| NaN.

(** [Number.isSafeInteger]: at most [2^53 - 1] in absolute value. *)
Definition isSafeInteger (z : Z) : Prop :=
  - 9007199254740991 <= z <= 9007199254740991.

Inductive value :=
| VUndefined
| VNull
| VBool (b : bool)
| VNum (n : number)
| VStr (s : string)
| VArr (elems : list value)
| VObj (props : list (string * value)).

(** ToBoolean: what [if (v)], [v && w] and [v || w] test. *)
Definition truthy (v : value) : bool :=
  match v with
  | VUndefined | VNull => false
  | VBool b => b
  | VNum (Int z) => negb (z =? 0)
  | VNum NaN => false
  | VStr s => negb (String.eqb s "")
  | VArr _ | VObj _ => true
  end.

(** [v || w] *)
Definition or_else (v w : value) : value := if truthy v then v else w.

(** [v === 'literal'] *)
Definition strict_eq_str (v : value) (lit : string) : bool :=
  match v with
  | VStr s => String.eqb s lit
  | _ => false
  end.

Definition nullish (v : value) : bool :=
  match v with
  | VUndefined | VNull => true
  | _ => false
  end.

(** ToString, as a template literal applies it (integers in full, as
    the language prints them below [10^21]). *)
Fixpoint ToString (v : value) : string :=
  match v with
  | VUndefined => "undefined"
  | VNull => "null"
  | VBool true => "true"
  | VBool false => "false"
  | VNum (Int z) => pretty z
  | VNum NaN => "NaN"
  | VStr s => s
  | VArr elems =>
      String.concat ","
        (List.map (fun e => if nullish e then "" else ToString e) elems)
  | VObj _ => "[object Object]"
  end.

Definition mul (a b : number) : number :=
  match a, b with
  | Int x, Int y => Int (x * y)
  | _, _ => NaN
  end.

Definition add (a b : number) : number :=
  match a, b with
  | Int x, Int y => Int (x + y)
  | _, _ => NaN
  end.

Definition sub (a b : number) : number :=
  match a, b with
  | Int x, Int y => Int (x - y)
  | _, _ => NaN
  end.

(** [a < b] on numbers: any comparison with NaN is false. *)
Definition lt (a b : number) : bool :=
  match a, b with
  | Int x, Int y => x <? y
  | _, _ => false
  end.

(** Own-property lookup in a parsed object. *)
Fixpoint assoc (k : string) (props : list (string * value)) : value :=
  match props with
  | [] => VUndefined
  | (k', v) :: rest => if String.eqb k k' then v else assoc k rest
  end.

Definition char_at (s : string) (i : nat) : value :=
  match String.get i s with
  | Some c => VStr (String c "")
  | None => VUndefined
  end.

(** [v.k] for the property names the handler reads ([data], [status],
    [details], [id], [error], [message], [access_token], [expires_in]):
    none of them is inherited from a prototype.  Reading a property of
    [null] or [undefined] throws a TypeError: [None] here. *)
Definition get (v : value) (k : string) : option value :=
  match v with
  | VUndefined | VNull => None
  | VObj props => Some (assoc k props)
  | _ => Some VUndefined
  end.

(** [v[0]] *)
Definition get0 (v : value) : option value :=
  match v with
  | VUndefined | VNull => None
  | VArr elems => Some (default VUndefined (head elems))
  | VStr s => Some (char_at s 0)
  | VObj props => Some (assoc "0" props)
  | _ => Some VUndefined
  end.

End Js.

(** ** String methods *)

Module Str.

(** WhiteSpace and LineTerminator code units below 256: what
    [String.prototype.trim] strips and what [\s] matches. *)
Definition is_white_space (c : ascii) : bool :=
  match N_of_ascii c with
  | 9 | 10 | 11 | 12 | 13 | 32 | 160 => true
  | _ => false
  end%N.

Fixpoint all (p : ascii -> bool) (s : string) : bool :=
  match s with
  | "" => true
  | String c rest => p c && all p rest
  end.

Definition all_white_space (s : string) : bool := all is_white_space s.

Fixpoint trimStart (s : string) : string :=
  match s with
  | "" => ""
  | String c rest => if is_white_space c then trimStart rest else s
  end.

Fixpoint trimEnd (s : string) : string :=
  match s with
  | "" => ""
  | String c rest =>
      match trimEnd rest with
      | "" => if is_white_space c then "" else String c ""
      | kept => String c kept
      end
  end.

Definition trim (s : string) : string := trimEnd (trimStart s).

(** [s.split(sep)] for a one-character separator; never the empty list. *)
Fixpoint split (sep : ascii) (s : string) : list string :=
  match s with
  | "" => [""]
  | String c rest =>
      if Ascii.eqb c sep then "" :: split sep rest
      else match split sep rest with
           | [] => [String c ""]
           | piece :: pieces => String c piece :: pieces
           end
  end.

(** [s] has no occurrence of [sep]. *)
Definition without (sep : ascii) (s : string) : bool :=
  all (fun c => negb (Ascii.eqb c sep)) s.

(** [parts.slice(1)] *)
Definition slice1 (parts : list string) : list string := tail parts.

(** [parts.join(sep)] *)
Definition join (sep : string) (parts : list string) : string :=
  String.concat sep parts.

(** [o || d] for a field that is a string when present. *)
Definition or_default (o : option string) (d : string) : string :=
  match o with
  | Some s => if String.eqb s "" then d else s
  | None => d
  end.

(** [o || null] *)
Definition or_null (o : option string) : option string :=
  match o with
  | Some s => if String.eqb s "" then None else Some s
  | None => None
  end.

(** [o === 'literal'] *)
Definition equals (o : option string) (literal : string) : bool :=
  match o with
  | Some s => String.eqb s literal
  | None => false
  end.

(** [!o] *)
Definition falsy (o : option string) : bool :=
  match o with
  | Some s => String.eqb s ""
  | None => true
  end.

End Str.

(** ** Regular expressions, matched by derivatives *)

Module Regex.

Inductive regex :=
| Never
| Empty
| Class (p : ascii -> bool)
| Seq (r1 r2 : regex)
| Alt (r1 r2 : regex)
| Star (r : regex).

(** [r+] *)
Definition Plus (r : regex) : regex := Seq r (Star r).

Definition Lit (c : ascii) : regex := Class (Ascii.eqb c).

Fixpoint nullable (r : regex) : bool :=
  match r with
  | Never => false
  | Empty => true
  | Class _ => false
  | Seq r1 r2 => nullable r1 && nullable r2
  | Alt r1 r2 => nullable r1 || nullable r2
  | Star _ => true
  end.

Fixpoint deriv (c : ascii) (r : regex) : regex :=
  match r with
  | Never => Never
  | Empty => Never
  | Class p => if p c then Empty else Never
  | Seq r1 r2 =>
      if nullable r1 then Alt (Seq (deriv c r1) r2) (deriv c r2)
      else Seq (deriv c r1) r2
  | Alt r1 r2 => Alt (deriv c r1) (deriv c r2)
  | Star r1 => Seq (deriv c r1) (Star r1)
  end.

(** [/^r$/.test(s)] *)
Fixpoint test (r : regex) (s : string) : bool :=
  match s with
  | "" => nullable r
  | String c rest => test (deriv c r) rest
  end.

(** The language of a regular expression. *)
Inductive Matches : regex -> string -> Prop :=
| MEmpty : Matches Empty ""
| MClass p c : p c = true -> Matches (Class p) (String c "")
| MSeq r1 r2 s1 s2 : Matches r1 s1 -> Matches r2 s2 -> Matches (Seq r1 r2) (s1 +:+ s2)
| MAltL r1 r2 s : Matches r1 s -> Matches (Alt r1 r2) s
| MAltR r1 r2 s : Matches r2 s -> Matches (Alt r1 r2) s
| MStarNil r : Matches (Star r) ""
| MStarCons r s1 s2 : Matches r s1 -> Matches (Star r) s2 -> Matches (Star r) (s1 +:+ s2).

End Regex.

(** ** Data model *)

(** The object [mapFormDataToZohoLead] builds.  [Email] is passed through
    ([None] when the form had no such field); [Phone], [Company] and
    [Description] are [null] ([None]) when the field is absent or empty. *)
Record LeadRecord := {
  First_Name : string;
  Last_Name : string;
  Email : option string;
  Phone : option string;
  Company : option string;
  Lead_Source : string;
  Lead_Status : string;
  Description : option string
}.

(** What [fetch] is called with and what it gives back. *)
Module Fetch.

Inductive RequestBody :=
| FormParams (params : list (string * string))
| JsonData (data : list LeadRecord).

Record Request := {
  url : string;
  method : string;
  headers : list (string * string);
  body : RequestBody
}.

(** [json = None]: the body is not JSON and [response.json()] rejects. *)
Record Response := {
  status : Z;
  json : option Js.value
}.

(** [response.ok] *)
Definition ok (r : Response) : bool := (200 <=? status r) && (status r <=? 299).

Inductive Outcome :=
| Rejected (reason : string)
| Resolved (r : Response).

End Fetch.

(** The request and response objects of the serverless platform.  A form
    arrives as URL-encoded text or as an object whose fields are strings. *)
Module Http.

Inductive Body :=
| Text (s : string)
| Object (fields : gmap string string).

Record Req := {
  method : string;
  body : Body
}.

(** [timestamp] is the instant [new Date()] read; its ISO-8601 rendering
    is left out. *)
Inductive Payload :=
| NoBody
| Failure (error : string) (timestamp : Z)
| Success (message : string) (leadId : Js.value) (timestamp : Z).

Record Res := {
  headers : gmap string string;
  statusCode : Z;
  payload : Payload
}.

End Http.

(** A thrown [Error]; only [message] is ever read. *)
Record Error := { message : string }.

Record Cache := {
  token : Js.value;
  expires : Js.number
}.

Record State := {
  accessTokenCache : Cache;
  clock : Z;
  calls : list Fetch.Request
}.

(** The state right after a [fetch] that took [elapsed] milliseconds:
    the call is on record and the clock has moved. *)
Definition afterFetch (st : State) (rq : Fetch.Request) (elapsed : Z) : State :=
  {| accessTokenCache := accessTokenCache st;
     clock := clock st + elapsed;
     calls := (calls st ++ [rq])%list |}.

(** The state after an assignment to [accessTokenCache]. *)
Definition withCache (st : State) (c : Cache) : State :=
  {| accessTokenCache := c; clock := clock st; calls := calls st |}.

(** [let accessTokenCache = { token: null, expires: 0 }] *)
Definition initialCache : Cache := {| token := Js.VNull; expires := Js.Int 0 |}.

Record Config := {
  clientId : option string;
  clientSecret : option string;
  refreshToken : option string;
  domain : string
}.

(** ** Asynchronous functions: state passing with exceptions *)

Inductive Completion (A : Type) :=
| Return (a : A)
| Throw (e : Error).
Arguments Return {A} a.
Arguments Throw {A} e.

Definition Async (A : Type) : Type := State -> Completion A * State.

Definition ret {A} (a : A) : Async A := fun st => (Return a, st).

Definition throw {A} (e : Error) : Async A := fun st => (Throw e, st).

Definition bind {A B} (m : Async A) (k : A -> Async B) : Async B :=
  fun st =>
    match m st with
    | (Return a, st') => k a st'
    | (Throw e, st') => (Throw e, st')
    end.

Definition try_catch {A} (m : Async A) (handler : Error -> Async A) : Async A :=
  fun st =>
    match m st with
    | (Return a, st') => (Return a, st')
    | (Throw e, st') => handler e st'
    end.

Notation "'let*' x ':=' m 'in' k" := (bind m (fun x => k))
  (at level 10, x name, m at level 100, k at level 200, only parsing).

(** [Date.now()] *)
Definition Date_now : Async Z := fun st => (Return (clock st), st).

Definition read_cache : Async Cache := fun st => (Return (accessTokenCache st), st).

Definition write_cache (c : Cache) : Async unit :=
  fun st => (Return tt, withCache st c).

(** [response.json()] *)
Definition Response_json (r : Fetch.Response) : Async Js.value :=
  match Fetch.json r with
  | Some v => ret v
  | None => throw {| message := "Unexpected token in JSON" |}
  end.

(** [v.k], throwing the TypeError of a read from [null] or [undefined]. *)
Definition prop (v : Js.value) (k : string) : Async Js.value :=
  match Js.get v k with
  | Some w => ret w
  | None =>
      throw {| message := "Cannot read properties of " +:+ Js.ToString v
                          +:+ " (reading '" +:+ k +:+ "')" |}
  end.

(** [v[0]] *)
Definition prop0 (v : Js.value) : Async Js.value :=
  match Js.get0 v with
  | Some w => ret w
  | None =>
      throw {| message := "Cannot read properties of " +:+ Js.ToString v
                          +:+ " (reading '0')" |}
  end.

(** ** The webhook *)

(** The two errors the module rethrows; JavaScript tells them apart by
    their message only. *)
Definition AuthenticationError : Error :=
  {| message := "Failed to authenticate with Zoho" |}.

Definition CRMRequestError : Error :=
  {| message := "Failed to create lead in Zoho CRM" |}.

Section Webhook.

(** [process.env] *)
Variable env : gmap string string.

(** The remote servers: given the calls made so far and the request, how
    long the call takes (milliseconds) and how it ends. *)
Variable network : list Fetch.Request -> Fetch.Request -> Z * Fetch.Outcome.

(** StringToNumber of the language (the numeric value of a string). *)
Variable StringToNumber : string -> Js.number.

(** The entries of [new URLSearchParams(text)], in order. *)
Variable URLSearchParams : string -> list (string * string).

(** ToNumber, as [*] applies it. *)
Definition ToNumber (v : Js.value) : Js.number :=
  match v with
  | Js.VUndefined => Js.NaN
  | Js.VNull => Js.Int 0
  | Js.VBool true => Js.Int 1
  | Js.VBool false => Js.Int 0
  | Js.VNum n => n
  | Js.VStr s => StringToNumber s
  | Js.VArr _ | Js.VObj _ => StringToNumber (Js.ToString v)
  end.

Definition fetch (rq : Fetch.Request) : Async Fetch.Response :=
  fun st =>
    let '(elapsed, outcome) := network (calls st) rq in
    let st' := afterFetch st rq elapsed in
    match outcome with
    | Fetch.Rejected reason => (Throw {| message := reason |}, st')
    | Fetch.Resolved r => (Return r, st')
    end.

Definition ZOHO_CONFIG : Config := {|
  clientId := env !! "ZOHO_CLIENT_ID";
  clientSecret := env !! "ZOHO_CLIENT_SECRET";
  refreshToken := env !! "ZOHO_REFRESH_TOKEN";
  domain := Str.or_default (env !! "ZOHO_DOMAIN") "https://www.zohoapis.com"
|}.

(** The token exchange request of [getAccessToken]; an unset credential
    is sent as the text [undefined]. *)
Definition tokenRequest : Fetch.Request := {|
  Fetch.url := "https://accounts.zoho.com/oauth/v2/token";
  Fetch.method := "POST";
  Fetch.headers := [("Content-Type", "application/x-www-form-urlencoded")];
  Fetch.body := Fetch.FormParams [
    ("refresh_token", default "undefined" (refreshToken ZOHO_CONFIG));
    ("client_id", default "undefined" (clientId ZOHO_CONFIG));
    ("client_secret", default "undefined" (clientSecret ZOHO_CONFIG));
    ("grant_type", "refresh_token")]
|}.

(** The lead creation request of [createZohoLead]. *)
Definition leadRequest (accessToken : Js.value) (leadData : LeadRecord) : Fetch.Request := {|
  Fetch.url := domain ZOHO_CONFIG +:+ "/crm/v2/Leads";
  Fetch.method := "POST";
  Fetch.headers := [("Authorization", "Zoho-oauthtoken " +:+ Js.ToString accessToken);
                    ("Content-Type", "application/json")];
  Fetch.body := Fetch.JsonData [leadData]
|}.

(** The test of the first [if] of [getAccessToken]:
    [accessTokenCache.token && Date.now() < accessTokenCache.expires]. *)
Definition cachedToken (c : Cache) (now : Z) : option Js.value :=
  if Js.truthy (token c) && Js.lt (Js.Int now) (expires c)
  then Some (token c) else None.

(** The two assignments under "Cache the token". *)
Definition cacheToken (access_token expires_in : Js.value) (now : Z) : Cache := {|
  token := access_token;
  expires := Js.sub (Js.add (Js.Int now) (Js.mul (ToNumber expires_in) (Js.Int 1000)))
                    (Js.Int 60000)
|}.

Definition getAccessToken : Async Js.value :=
  let* now := Date_now in
  let* cache := read_cache in
  match cachedToken cache now with
  | Some cached => ret cached
  | None =>
      try_catch
        (let* response := fetch tokenRequest in
         let* data := Response_json response in
         if negb (Fetch.ok response) then
           let* reason := prop data "error" in
           throw {| message := "Token request failed: "
                      +:+ Js.ToString (Js.or_else reason (Js.VStr "Unknown error")) |}
         else
           let* access_token := prop data "access_token" in
           let* expires_in := prop data "expires_in" in
           let* stored := Date_now in
           let* _ := write_cache (cacheToken access_token expires_in stored) in
           ret access_token)
        (fun error => throw AuthenticationError)
  end.

Definition createZohoLead (leadData : LeadRecord) : Async Js.value :=
  try_catch
    (let* accessToken := getAccessToken in
     let* response := fetch (leadRequest accessToken leadData) in
     let* data := Response_json response in
     if negb (Fetch.ok response) then
       let* reason := prop data "message" in
       throw {| message := "CRM request failed: "
                  +:+ Js.ToString (Js.or_else reason (Js.VStr "Unknown error")) |}
     else ret data)
    (fun error => throw CRMRequestError).

(** [formType] is [None] when the argument is [undefined]; the [switch]
    compares it with each [case] by [===], in order.  [split] never gives
    an empty array, so [nameParts[0]] is a text. *)
Definition mapFormDataToZohoLead (formData : gmap string string)
    (formType : option string) : LeadRecord :=
  let nameParts := Str.split " " (Str.or_default (formData !! "name") "Unknown User") in
  let firstName := hd "" nameParts in
  let lastName :=
    let rest := Str.join " " (Str.slice1 nameParts) in
    if String.eqb rest "" then "User" else rest in
  let baseData := {|
    First_Name := firstName;
    Last_Name := lastName;
    Email := formData !! "email";
    Phone := Str.or_null (formData !! "phone");
    Company := Str.or_null (formData !! "company");
    Lead_Source := "Website";
    Lead_Status := "Not Contacted";
    Description := Str.or_null (formData !! "message")
  |} in
  if Str.equals formType "contact" then
    {| First_Name := First_Name baseData; Last_Name := Last_Name baseData;
       Email := Email baseData; Phone := Phone baseData;
       Company := Company baseData;
       Lead_Source := "Website - Contact Form";
       Lead_Status := Lead_Status baseData;
       Description := Description baseData |}
  else if Str.equals formType "newsletter" then
    {| First_Name := First_Name baseData; Last_Name := Last_Name baseData;
       Email := Email baseData; Phone := Phone baseData;
       Company := Company baseData;
       Lead_Source := "Website - Newsletter";
       Lead_Status := "Qualified";
       Description := Description baseData |}
  else baseData.

(** [formData[key] = value] on the object literal [{}]: the key
    [__proto__] is the one key whose assignment adds no field (its setter
    ignores a text). *)
Definition parseFormData (body : Http.Body) : gmap string string :=
  match body with
  | Http.Text text =>
      fold_left (fun formData '(key, value) =>
                   if String.eqb key "__proto__" then formData
                   else <[key := value]> formData)
                (URLSearchParams text) ∅
  | Http.Object fields => fields
  end.

(** The headers a response carries after [addCORSHeaders(res)]. *)
Definition addCORSHeaders (headers : gmap string string) : gmap string string :=
  <["Access-Control-Allow-Headers" := "Content-Type"]>
    (<["Access-Control-Allow-Methods" := "POST, OPTIONS"]>
       (<["Access-Control-Allow-Origin" := "*"]> headers)).

(** [/^[^\s@]+@[^\s@]+\.[^\s@]+$/] *)
Definition notSpaceOrAt (c : ascii) : bool :=
  negb (Str.is_white_space c) && negb (Ascii.eqb c "@").

Definition emailRegex : Regex.regex :=
  Regex.Seq (Regex.Plus (Regex.Class notSpaceOrAt))
    (Regex.Seq (Regex.Lit "@")
       (Regex.Seq (Regex.Plus (Regex.Class notSpaceOrAt))
          (Regex.Seq (Regex.Lit ".")
             (Regex.Plus (Regex.Class notSpaceOrAt))))).

(** [!field || field.trim().length === 0] *)
Definition blank (field : option string) : bool :=
  match field with
  | Some s => String.eqb s "" || (String.length (Str.trim s) =? 0)%nat
  | None => true
  end.

Definition validateFormData (formData : gmap string string) : list string :=
  let errors : list string := [] in
  let errors :=
    if blank (formData !! "name") then (errors ++ ["Name is required"])%list else errors in
  let errors :=
    if blank (formData !! "email") then (errors ++ ["Email is required"])%list else errors in
  let errors :=
    match formData !! "email" with
    | Some email =>
        if negb (String.eqb email "") && negb (Regex.test emailRegex email)
        then (errors ++ ["Invalid email format"])%list else errors
    | None => errors
    end in
  errors.

(** [res.status(code).json(payload)] on the response that already went
    through [addCORSHeaders]. *)
Definition respond (code : Z) (payload : Http.Payload) : Http.Res := {|
  Http.headers := addCORSHeaders ∅;
  Http.statusCode := code;
  Http.payload := payload
|}.

(** The end of the [try] block of [handler], from "Check if lead was
    created successfully" on.  The condition is
    [zohoResponse.data && zohoResponse.data[0]
     && zohoResponse.data[0].status === 'success']. *)
Definition acknowledge (zohoResponse : Js.value) : Async Http.Res :=
  let* data := prop zohoResponse "data" in
  let* created :=
    if Js.truthy data then
      let* first := prop0 data in
      if Js.truthy first then
        let* status := prop first "status" in
        ret (Js.strict_eq_str status "success")
      else ret false
    else ret false in
  if created then
    let* data := prop zohoResponse "data" in
    let* first := prop0 data in
    let* details := prop first "details" in
    let* id := prop details "id" in
    let* now := Date_now in
    ret (respond 200 (Http.Success "Lead created successfully in Zoho CRM" id now))
  else throw CRMRequestError.

(** The [try] block of [handler]. *)
Definition handlePost (req : Http.Req) : Async Http.Res :=
  let formData := parseFormData (Http.body req) in
  let validationErrors := validateFormData formData in
  if (0 <? List.length validationErrors)%nat then
    let* now := Date_now in
    ret (respond 400
           (Http.Failure ("Validation failed: " +:+ Str.join ", " validationErrors) now))
  else
    let formType := Str.or_default (formData !! "form_type") "general" in
    let zohoLeadData := mapFormDataToZohoLead formData (Some formType) in
    let* zohoResponse := createZohoLead zohoLeadData in
    acknowledge zohoResponse.

Definition handler (req : Http.Req) (st : State) : Http.Res * State :=
  if String.eqb (Http.method req) "OPTIONS" then
    (respond 200 Http.NoBody, st)
  else if negb (String.eqb (Http.method req) "POST") then
    (respond 405 (Http.Failure "Method not allowed" (clock st)), st)
  else
    match handlePost req st with
    | (Return res, st') => (res, st')
    | (Throw error, st') =>
        (respond 500
           (Http.Failure
              (if String.eqb (message error) "" then "An error occurred" else message error)
              (clock st')),
         st')
    end.

(** What a token exchange grants: the [access_token] and [expires_in] of
    a success response whose body is JSON other than [null]. *)
Definition granted (outcome : Fetch.Outcome) : option (Js.value * Js.value) :=
  match outcome with
  | Fetch.Rejected _ => None
  | Fetch.Resolved response =>
      match Fetch.json response with
      | None => None
      | Some data =>
          if Fetch.ok response then
            match Js.get data "access_token", Js.get data "expires_in" with
            | Some access_token, Some expires_in => Some (access_token, expires_in)
            | _, _ => None
            end
          else None
      end
  end.

(** The condition of the last [if] of [handler] holds of [first]:
    [zohoResponse.data && zohoResponse.data[0]
     && zohoResponse.data[0].status === 'success']. *)
Definition firstEntrySucceeded (zohoResponse first : Js.value) : Prop :=
  exists data,
    Js.get zohoResponse "data" = Some data /\ Js.truthy data = true /\
    Js.get0 data = Some first /\ Js.truthy first = true /\
    exists status,
      Js.get first "status" = Some status /\ Js.strict_eq_str status "success" = true.

(** ... and [zohoResponse.data[0].details.id] evaluates to [id]. *)
Definition createdLead (zohoResponse id : Js.value) : Prop :=
  exists first details,
    firstEntrySucceeded zohoResponse first /\
    Js.get first "details" = Some details /\
    Js.get details "id" = Some id.

End Webhook.

(** ** The specification's wording, for comparison *)

Module Spec.

(** The pieces of a text between its whitespace characters. *)
Fixpoint fields (s : string) : list string :=
  match s with
  | "" => [""]
  | String c rest =>
      if Str.is_white_space c then "" :: fields rest
      else match fields rest with
           | [] => [String c ""]
           | piece :: pieces => String c piece :: pieces
           end
  end.

(** The whitespace-delimited tokens: the pieces that are not empty. *)
Definition tokens (s : string) : list string :=
  List.filter (fun piece => negb (String.eqb piece "")) (fields s).

(** "first whitespace-delimited token" *)
Definition firstToken (s : string) : string := hd "" (tokens s).

(** "remainder joined, defaulting to User if empty" *)
Definition remainderJoined (s : string) : string :=
  let rest := Str.join " " (tail (tokens s)) in
  if String.eqb rest "" then "User" else rest.

(** "a list with exactly one entry whose status field equals success and
    whose details include an identifier" *)
Definition acknowledged (response : Js.value) (id : Js.value) : Prop :=
  exists entry details,
    Js.get response "data" = Some (Js.VArr [entry]) /\
    Js.get entry "status" = Some (Js.VStr "success") /\
    Js.get entry "details" = Some details /\
    Js.get details "id" = Some id /\
    id <> Js.VUndefined.

(** "a standard local@domain.tld shape": three non-empty parts free of
    whitespace and of further at-signs. *)
Definition emailShape (s : string) : Prop :=
  exists loc dom tld,
    s = loc +:+ "@" +:+ dom +:+ "." +:+ tld /\
    (loc <> "" /\ Str.all notSpaceOrAt loc = true) /\
    (dom <> "" /\ Str.all notSpaceOrAt dom = true) /\
    (tld <> "" /\ Str.all notSpaceOrAt tld = true).

End Spec.

(** ** A concrete platform, to run the webhook on examples *)

Module Demo.

Definition env : gmap string string :=
  <["ZOHO_CLIENT_ID" := "1000.ABC"]>
    (<["ZOHO_CLIENT_SECRET" := "s3cret"]>
       (<["ZOHO_REFRESH_TOKEN" := "1000.refresh"]> ∅)).

(** Decimal digits only: enough for the numeric strings of the examples. *)
Fixpoint digits (acc : Z) (s : string) : Js.number :=
  match s with
  | "" => Js.Int acc
  | String c rest =>
      let d := Z.of_N (N_of_ascii c) - 48 in
      if (0 <=? d) && (d <=? 9) then digits (10 * acc + d) rest else Js.NaN
  end.

Definition StringToNumber (s : string) : Js.number := digits 0 s.

Definition URLSearchParams (text : string) : list (string * string) := [].

(** The authorization server answers every exchange with [auth] and the
    CRM every lead with [crm]. *)
Definition network (auth crm : Z * Fetch.Outcome)
    (history : list Fetch.Request) (rq : Fetch.Request) : Z * Fetch.Outcome :=
  if String.eqb (Fetch.url rq) "https://accounts.zoho.com/oauth/v2/token"
  then auth else crm.

Definition tokenGranted (access_token : string) (expires_in : Z) : Z * Fetch.Outcome :=
  (120, Fetch.Resolved {|
     Fetch.status := 200;
     Fetch.json := Some (Js.VObj [("access_token", Js.VStr access_token);
                                  ("expires_in", Js.VNum (Js.Int expires_in))]) |}).

Definition crmAnswers (code : Z) (body : Js.value) : Z * Fetch.Outcome :=
  (250, Fetch.Resolved {| Fetch.status := code; Fetch.json := Some body |}).

Definition entry (status : string) (details : list (string * Js.value)) : Js.value :=
  Js.VObj [("code", Js.VStr "SUCCESS"); ("details", Js.VObj details);
           ("status", Js.VStr status)].

Definition coldStart (now : Z) : State :=
  {| accessTokenCache := initialCache; clock := now; calls := [] |}.

Definition form (fields : list (string * string)) : gmap string string :=
  list_to_map fields.

Definition post (fields : list (string * string)) : Http.Req :=
  {| Http.method := "POST"; Http.body := Http.Object (form fields) |}.

(** A state whose cache holds a token good until the instant 3541000. *)
Definition warm (now : Z) : State :=
  {| accessTokenCache := {| token := Js.VStr "1000.cached"; expires := Js.Int 3541000 |};
     clock := now;
     calls := [] |}.

Definition tokenRefused : Z * Fetch.Outcome :=
  (90, Fetch.Resolved {|
     Fetch.status := 400;
     Fetch.json := Some (Js.VObj [("error", Js.VStr "invalid_client")]) |}).

Definition oneEntry : Js.value :=
  Js.VObj [("data", Js.VArr [entry "success" [("id", Js.VStr "42")]])].

Definition twoEntries : Js.value :=
  Js.VObj [("data", Js.VArr [entry "success" [("id", Js.VStr "42")];
                             entry "error" []])].

Definition noIdentifier : Js.value :=
  Js.VObj [("data", Js.VArr [entry "success" []])].

Definition jane : Http.Req :=
  post [("name", "Jane Doe"); ("email", "jane@co.com"); ("form_type", "contact")].

(** The webhook on this platform. *)
Definition serve (auth crm : Z * Fetch.Outcome) : Http.Req -> State -> Http.Res * State :=
  handler env (network auth crm) StringToNumber URLSearchParams.

Definition acquire (auth crm : Z * Fetch.Outcome) : Async Js.value :=
  getAccessToken env (network auth crm) StringToNumber.

Definition submit (auth crm : Z * Fetch.Outcome) : LeadRecord -> Async Js.value :=
  createZohoLead env (network auth crm) StringToNumber.

End Demo.


(** ** The axios variant (the second module of the file)

    Its validator, parser and CORS headers are those above.  Its mapper
    and its handler differ; its token provider and lead submitter go
    through the axios client and are a parameter of the handler here. *)

Module Axios.

(** [formData.name?.split(' ')[0] || 'Unknown'] and
    [formData.name?.split(' ').slice(1).join(' ') || 'User']. *)
Definition mapFormDataToZohoLead (formData : gmap string string)
    (formType : option string) : LeadRecord :=
  let baseData := {|
    First_Name :=
      Str.or_default
        (option_map (fun name => hd "" (Str.split " " name)) (formData !! "name"))
        "Unknown";
    Last_Name :=
      Str.or_default
        (option_map (fun name => Str.join " " (Str.slice1 (Str.split " " name)))
           (formData !! "name"))
        "User";
    Email := formData !! "email";
    Phone := Str.or_null (formData !! "phone");
    Company := Str.or_null (formData !! "company");
    Lead_Source := "Website";
    Lead_Status := "Not Contacted";
    Description := Str.or_null (formData !! "message")
  |} in
  if Str.equals formType "contact" then
    {| First_Name := First_Name baseData; Last_Name := Last_Name baseData;
       Email := Email baseData; Phone := Phone baseData;
       Company := Company baseData;
       Lead_Source := "Website - Contact Form";
       Lead_Status := Lead_Status baseData;
       Description := Description baseData |}
  else if Str.equals formType "newsletter" then
    {| First_Name := First_Name baseData; Last_Name := Last_Name baseData;
       Email := Email baseData; Phone := Phone baseData;
       Company := Company baseData;
       Lead_Source := "Website - Newsletter";
       Lead_Status := "Qualified";
       Description := Description baseData |}
  else baseData.

(** [sendSuccessResponse(res, message = 'Form submitted successfully')]
    at the instant [now].  The body has no [leadId]: [undefined] here, as
    a property that JSON leaves out. *)
Definition sendSuccessResponse (message : option string) (now : Z) : Http.Res :=
  respond 200 (Http.Success (default "Form submitted successfully" message)
                 Js.VUndefined now).

(** [sendErrorResponse(res, error, statusCode = 500)] at the instant [now]. *)
Definition sendErrorResponse (error : Error) (statusCode : option Z) (now : Z) : Http.Res :=
  respond (default 500 statusCode)
    (Http.Failure
       (if String.eqb (message error) "" then "An error occurred" else message error)
       now).

Section Handler.

Variable URLSearchParams : string -> list (string * string).

(** The lead submitter of this variant. *)
Variable createZohoLead : LeadRecord -> Async Js.value.

(** [zohoResponse.data && zohoResponse.data[0]
     && zohoResponse.data[0].status === 'success'] *)
Definition leadCreated (zohoResponse : Js.value) : Async bool :=
  let* data := prop zohoResponse "data" in
  if Js.truthy data then
    let* first := prop0 data in
    if Js.truthy first then
      let* status := prop first "status" in
      ret (Js.strict_eq_str status "success")
    else ret false
  else ret false.

(** The [try] block of [handler]. *)
Definition handlePost (req : Http.Req) : Async Http.Res :=
  let formData := parseFormData URLSearchParams (Http.body req) in
  let validationErrors := validateFormData formData in
  if (0 <? List.length validationErrors)%nat then
    let* now := Date_now in
    ret (sendErrorResponse
           {| message := "Validation failed: " +:+ Str.join ", " validationErrors |}
           (Some 400) now)
  else
    let formType := Str.or_default (formData !! "form_type") "general" in
    let zohoLeadData := mapFormDataToZohoLead formData (Some formType) in
    let* zohoResponse := createZohoLead zohoLeadData in
    let* created := leadCreated zohoResponse in
    if created then
      let* now := Date_now in
      ret (sendSuccessResponse (Some "Lead created successfully in Zoho CRM") now)
    else throw {| message := "Failed to create lead in Zoho CRM" |}.

Definition handler (req : Http.Req) (st : State) : Http.Res * State :=
  if String.eqb (Http.method req) "OPTIONS" then
    (respond 200 Http.NoBody, st)
  else if negb (String.eqb (Http.method req) "POST") then
    (sendErrorResponse {| message := "Method not allowed" |} (Some 405) (clock st), st)
  else
    match handlePost req st with
    | (Return res, st') => (res, st')
    | (Throw error, st') => (sendErrorResponse error None (clock st'), st')
    end.

End Handler.

End Axios.

(** ** Notions used in the statements below *)

(** The number of occurrences of a character. *)
Fixpoint occurrences (c : ascii) (s : string) : nat :=
  match s with
  | "" => 0
  | String c' rest => (if Ascii.eqb c' c then 1 else 0) + occurrences c rest
  end%nat.

(** The value of the last entry under [key], if any. *)
Fixpoint lastValue (key : string) (entries : list (string * string)) : option string :=
  match entries with
  | [] => None
  | (k, v) :: rest =>
      match lastValue key rest with
      | Some later => Some later
      | None => if String.eqb k key then Some v else None
      end
  end.

(** The fields the handler reads from a form. *)
Definition formFields : list string :=
  ["name"; "email"; "phone"; "company"; "message"; "form_type"].

(** The status codes the handler uses. *)
Definition knownStatus (code : Z) : bool :=
  (code =? 200) || (code =? 400) || (code =? 405) || (code =? 500).

(** More sample data. *)
Module Sample.

(** A success answer that carries an error instead of a token. *)
Definition tokenMissing : Z * Fetch.Outcome :=
  (120, Fetch.Resolved {|
     Fetch.status := 200;
     Fetch.json := Some (Js.VObj [("error", Js.VStr "invalid_code")]) |}).

(** A created lead acknowledged without [details]. *)
Definition noDetails : Js.value :=
  Js.VObj [("data", Js.VArr [Js.VObj [("code", Js.VStr "SUCCESS");
                                      ("status", Js.VStr "success")]])].

Definition unauthorized : Z * Fetch.Outcome :=
  Demo.crmAnswers 401
    (Js.VObj [("code", Js.VStr "INVALID_TOKEN"); ("message", Js.VStr "invalid oauth token")]).

(** [name=Ann&email=a%40b.com&name=Bob], as entries. *)
Definition URLSearchParams (text : string) : list (string * string) :=
  [("name", "Ann"); ("email", "a@b.com"); ("name", "Bob")].

(** A submitter that returns [zohoResponse] after one call of 250 ms. *)
Definition answering (zohoResponse : Js.value) (leadData : LeadRecord) : Async Js.value :=
  fun st =>
    (Return zohoResponse,
     afterFetch st (leadRequest Demo.env (Js.VStr "1000.tok") leadData) 250).

End Sample.

(** * Properties *)

(** ** Strings *)

Lemma append_nil_inv (s1 s2 : string) : s1 +:+ s2 = "" -> s1 = "" /\ s2 = "".
Proof. destruct s1; simpl; [tauto | discriminate]. Qed.

Lemma append_cons_inv (s1 s2 s : string) (c : ascii) :
  s1 +:+ s2 = String c s ->
  (s1 = "" /\ s2 = String c s) \/ (exists s1', s1 = String c s1' /\ s = s1' +:+ s2).
Proof.
  destruct s1 as [|c1 s1]; simpl; intros H.
  - left; auto.
  - right. injection H as -> <-. eauto.
Qed.

Lemma all_app (p : ascii -> bool) (s1 s2 : string) :
  Str.all p (s1 +:+ s2) = Str.all p s1 && Str.all p s2.
Proof.
  induction s1 as [|c s1 IH]; simpl; [reflexivity|].
  rewrite IH. now rewrite andb_assoc.
Qed.

Lemma trimStart_white (s : string) :
  Str.all_white_space s = true -> Str.trimStart s = "".
Proof.
  unfold Str.all_white_space.
  induction s as [|c s IH]; simpl; [reflexivity|].
  intros [Hc Hs]%andb_prop. rewrite Hc. auto.
Qed.

Lemma trimEnd_nil_white (s : string) :
  Str.trimEnd s = "" -> Str.all_white_space s = true.
Proof.
  unfold Str.all_white_space.
  induction s as [|c s IH]; simpl; [reflexivity|].
  destruct (Str.trimEnd s) eqn:E; [|discriminate].
  destruct (Str.is_white_space c); [auto | discriminate].
Qed.

Lemma trimStart_head (s : string) (c : ascii) (rest : string) :
  Str.trimStart s = String c rest -> Str.is_white_space c = false.
Proof.
  induction s as [|c0 s IH]; simpl; [discriminate|].
  destruct (Str.is_white_space c0) eqn:E; [auto|].
  now intros [= <- _].
Qed.

(** [s.trim().length === 0] exactly when [s] is whitespace throughout. *)
Lemma trim_blank (s : string) :
  Nat.eqb (String.length (Str.trim s)) 0 = Str.all_white_space s.
Proof.
  destruct (Str.all_white_space s) eqn:W.
  - unfold Str.trim. now rewrite (trimStart_white s W).
  - apply Nat.eqb_neq. intros L. unfold Str.trim in L.
    assert (E : Str.trimEnd (Str.trimStart s) = "")
      by (destruct (Str.trimEnd (Str.trimStart s)); [reflexivity | discriminate]).
    apply trimEnd_nil_white in E.
    assert (T : Str.trimStart s = "").
    { destruct (Str.trimStart s) as [|c r] eqn:Et; [reflexivity|].
      apply trimStart_head in Et. unfold Str.all_white_space in E. simpl in E.
      rewrite Et in E. discriminate. }
    clear E L. revert W T. unfold Str.all_white_space.
    induction s as [|c s IH]; simpl; [discriminate|].
    destruct (Str.is_white_space c); simpl; [auto | discriminate].
Qed.

(** ** Regular expressions: the matcher decides the language *)

Lemma matches_nil_nullable (r : Regex.regex) (s : string) :
  Regex.Matches r s -> s = "" -> Regex.nullable r = true.
Proof.
  induction 1 as [ | p c Hp | r1 r2 s1 s2 _ IH1 _ IH2 | r1 r2 s _ IH
                 | r1 r2 s _ IH | r | r s1 s2 _ _ _ _ ]; intros E; simpl.
  - reflexivity.
  - discriminate.
  - apply append_nil_inv in E as [-> ->]. now rewrite IH1, IH2.
  - now rewrite IH.
  - rewrite IH by assumption. apply orb_true_r.
  - reflexivity.
  - reflexivity.
Qed.

Lemma nullable_matches_nil (r : Regex.regex) :
  Regex.nullable r = true -> Regex.Matches r "".
Proof.
  induction r as [ | | p | r1 IH1 r2 IH2 | r1 IH1 r2 IH2 | r IH ]; simpl; intros N.
  - discriminate.
  - constructor.
  - discriminate.
  - apply andb_prop in N as [N1 N2].
    change "" with ("" +:+ ""). constructor; auto.
  - apply orb_prop in N as [N | N];
      [apply Regex.MAltL | apply Regex.MAltR]; auto.
  - constructor.
Qed.

Lemma matches_deriv (r : Regex.regex) (s0 : string) :
  Regex.Matches r s0 ->
  forall c s, s0 = String c s -> Regex.Matches (Regex.deriv c r) s.
Proof.
  induction 1 as [ | p c0 Hp | r1 r2 s1 s2 M1 IH1 M2 IH2 | r1 r2 s0 _ IH
                 | r1 r2 s0 _ IH | r | r s1 s2 M1 IH1 M2 IH2 ]; intros c s E; simpl.
  - discriminate.
  - injection E as -> <-. rewrite Hp. constructor.
  - apply append_cons_inv in E as [[-> ->] | (s1' & -> & ->)].
    + rewrite (matches_nil_nullable r1 "" M1 eq_refl).
      apply Regex.MAltR. now apply IH2.
    + destruct (Regex.nullable r1).
      * apply Regex.MAltL. constructor; auto.
      * constructor; auto.
  - apply Regex.MAltL. now apply IH.
  - apply Regex.MAltR. now apply IH.
  - discriminate.
  - apply append_cons_inv in E as [[-> ->] | (s1' & -> & ->)].
    + now apply IH2.
    + constructor; auto.
Qed.

Lemma deriv_matches (r : Regex.regex) :
  forall c s, Regex.Matches (Regex.deriv c r) s -> Regex.Matches r (String c s).
Proof.
  induction r as [ | | p | r1 IH1 r2 IH2 | r1 IH1 r2 IH2 | r IH ];
    simpl; intros c s M.
  - inversion M.
  - inversion M.
  - destruct (p c) eqn:Hp; inversion M; subst. now constructor.
  - assert (L : forall t, Regex.Matches (Regex.Seq (Regex.deriv c r1) r2) t ->
                          Regex.Matches (Regex.Seq r1 r2) (String c t)).
    { intros t Mt. inversion Mt as [ | | ? ? t1 t2 Ma Mb | | | | ]; subst.
      change (String c (t1 +:+ t2)) with (String c t1 +:+ t2).
      constructor; auto. }
    destruct (Regex.nullable r1) eqn:N; [|auto].
    inversion M; subst; [auto|].
    change (String c s) with ("" +:+ String c s).
    constructor; [now apply nullable_matches_nil | auto].
  - inversion M; subst; [apply Regex.MAltL | apply Regex.MAltR]; auto.
  - inversion M as [ | | ? ? t1 t2 Ma Mb | | | | ]; subst.
    change (String c (t1 +:+ t2)) with (String c t1 +:+ t2).
    constructor; auto.
Qed.

(** [test] decides membership in the language. *)
Lemma test_spec (s : string) :
  forall r, Regex.test r s = true <-> Regex.Matches r s.
Proof.
  induction s as [|c s IH]; intros r; simpl.
  - split; [apply nullable_matches_nil|].
    intros M. now apply (matches_nil_nullable r "").
  - rewrite IH. split; [apply deriv_matches|].
    intros M. now apply (matches_deriv r (String c s)).
Qed.

Lemma star_class_all (p : ascii -> bool) (r : Regex.regex) (s : string) :
  Regex.Matches r s -> r = Regex.Star (Regex.Class p) -> Str.all p s = true.
Proof.
  induction 1 as [ | | | | | r0 | r0 s1 s2 M1 _ M2 IH2 ]; intros E; try discriminate.
  - reflexivity.
  - injection E as ->. rewrite all_app, IH2 by reflexivity.
    inversion M1; subst. simpl. now rewrite H0.
Qed.

Lemma all_star_class (p : ascii -> bool) (s : string) :
  Str.all p s = true -> Regex.Matches (Regex.Star (Regex.Class p)) s.
Proof.
  induction s as [|c s IH]; simpl; intros A; [constructor|].
  apply andb_prop in A as [Hc Hs].
  change (String c s) with (String c "" +:+ s).
  constructor; [now constructor | auto].
Qed.

(** [[p]+] matches the non-empty texts made of [p] characters. *)
Lemma plus_class_spec (p : ascii -> bool) (s : string) :
  Regex.Matches (Regex.Plus (Regex.Class p)) s <-> s <> "" /\ Str.all p s = true.
Proof.
  unfold Regex.Plus. split.
  - intros M. inversion M as [ | | ? ? s1 s2 Ma Mb | | | | ]; subst.
    inversion Ma; subst. simpl. split; [discriminate|].
    rewrite H0. simpl. now apply (star_class_all p _ _ Mb).
  - intros [Hne A]. destruct s as [|c s]; [congruence|].
    simpl in A. apply andb_prop in A as [Hc Hs].
    change (String c s) with (String c "" +:+ s).
    constructor; [now constructor | now apply all_star_class].
Qed.

Lemma lit_spec (c : ascii) (s : string) :
  Regex.Matches (Regex.Lit c) s <-> s = String c "".
Proof.
  unfold Regex.Lit. split.
  - intros M. inversion M; subst. now apply Ascii.eqb_eq in H0 as ->.
  - intros ->. constructor. apply Ascii.eqb_refl.
Qed.

Lemma emailRegex_spec (s : string) :
  Regex.test emailRegex s = true <-> Spec.emailShape s.
Proof.
  rewrite test_spec. unfold emailRegex, Spec.emailShape. split.
  - intros M.
    inversion M as [ | | ? ? loc s1 Ml M1 | | | | ]; subst.
    inversion M1 as [ | | ? ? at_ s2 Ma M2 | | | | ]; subst.
    inversion M2 as [ | | ? ? dom s3 Md M3 | | | | ]; subst.
    inversion M3 as [ | | ? ? dot tld Mp Mt | | | | ]; subst.
    apply lit_spec in Ma as ->. apply lit_spec in Mp as ->.
    apply plus_class_spec in Ml, Md, Mt.
    exists loc, dom, tld. auto.
  - intros (loc & dom & tld & -> & Hl & Hd & Ht).
    constructor; [now apply plus_class_spec|].
    constructor; [now apply lit_spec|].
    constructor; [now apply plus_class_spec|].
    constructor; [now apply lit_spec | now apply plus_class_spec].
Qed.

(** ** [split] and [join] *)

Lemma split_cons_exists (sep : ascii) (s : string) :
  exists piece pieces, Str.split sep s = piece :: pieces.
Proof.
  destruct s as [|c s]; simpl; [eauto|].
  destruct (Ascii.eqb c sep); [eauto|].
  destruct (Str.split sep s); eauto.
Qed.

Lemma split_without (sep : ascii) (s : string) :
  Str.without sep s = true -> Str.split sep s = [s].
Proof.
  unfold Str.without. induction s as [|c s IH]; simpl; [reflexivity|].
  intros [Hc Hs]%andb_prop. apply negb_true_iff in Hc. rewrite Hc.
  now rewrite (IH Hs).
Qed.

Lemma split_at_first (sep : ascii) (first rest : string) :
  Str.without sep first = true ->
  Str.split sep (first +:+ String sep rest) = first :: Str.split sep rest.
Proof.
  unfold Str.without. induction first as [|c s IH]; simpl.
  - intros _. now rewrite Ascii.eqb_refl.
  - intros [Hc Hs]%andb_prop. apply negb_true_iff in Hc. rewrite Hc.
    now rewrite (IH Hs).
Qed.

Lemma join_split (sep : ascii) (s : string) :
  Str.join (String sep "") (Str.split sep s) = s.
Proof.
  unfold Str.join. induction s as [|c s IH]; simpl; [reflexivity|].
  destruct (split_cons_exists sep s) as (piece & pieces & E).
  rewrite E in IH |- *.
  destruct (Ascii.eqb c sep) eqn:Hc.
  - apply Ascii.eqb_eq in Hc as ->. simpl in *. now rewrite IH.
  - simpl in *. destruct pieces; simpl in *; now rewrite <- IH.
Qed.

(** ** The token provider and the lead submitter *)

Section TokenProperties.

Variable env : gmap string string.
Variable network : list Fetch.Request -> Fetch.Request -> Z * Fetch.Outcome.
Variable StringToNumber : string -> Js.number.

Local Abbreviation acquire := (getAccessToken env network StringToNumber).
Local Abbreviation submit := (createZohoLead env network StringToNumber).
Local Abbreviation exchange := (tokenRequest env).

Lemma getAccessToken_hit (st : State) (cached : Js.value) :
  cachedToken (accessTokenCache st) (clock st) = Some cached ->
  acquire st = (Return cached, st).
Proof.
  intros H. unfold getAccessToken, bind, Date_now, read_cache. now rewrite H.
Qed.

Lemma getAccessToken_miss (st : State) :
  cachedToken (accessTokenCache st) (clock st) = None ->
  acquire st =
    let st' := afterFetch st exchange (fst (network (calls st) exchange)) in
    match granted (snd (network (calls st) exchange)) with
    | Some (access_token, expires_in) =>
        (Return access_token,
         withCache st' (cacheToken StringToNumber access_token expires_in (clock st')))
    | None => (Throw AuthenticationError, st')
    end.
Proof.
  intros H.
  unfold getAccessToken, bind, Date_now, read_cache, try_catch, fetch.
  rewrite H. cbn zeta.
  destruct (network (calls st) exchange) as [elapsed [reason | response]]; cbn.
  - reflexivity.
  - unfold Response_json. destruct (Fetch.json response) as [data|]; cbn; [|reflexivity].
    destruct (Fetch.ok response); cbn.
    + unfold prop.
      destruct (Js.get data "access_token") as [a|] eqn:Ea; cbn.
      * destruct (Js.get data "expires_in") as [e|] eqn:Ee; cbn; [reflexivity|].
        destruct data; discriminate.
      * reflexivity.
    + unfold prop. destruct (Js.get data "error"); reflexivity.
Qed.

Lemma cachedToken_spec (c : Cache) (now : Z) :
  cachedToken c now =
    if Js.truthy (token c) && Js.lt (Js.Int now) (expires c)
    then Some (token c) else None.
Proof. reflexivity. Qed.

Lemma list_snoc_neq {A} (l : list A) (x : A) : (l ++ [x])%list <> l.
Proof.
  intros E. apply (f_equal (@List.length A)) in E.
  rewrite length_app in E. simpl in E. lia.
Qed.

(** The two halves of the cache on their own: what [cacheToken] stores
    is served by [cachedToken] exactly before the stored expiry. *)
Lemma cacheToken_cachedToken (access_token : Js.value) (T now t : Z) :
  Js.truthy access_token = true ->
  cachedToken (cacheToken StringToNumber access_token (Js.VNum (Js.Int T)) now) t
  = if t <? now + T * 1000 - 60000 then Some access_token else None.
Proof.
  intros Htok. rewrite cachedToken_spec. cbn. now rewrite Htok.
Qed.

(** C1. When [getAccessToken] caches a token granted for [T] seconds,
    [now] being the instant of the store, the cache holds the token with
    the expiry [now + T*1000 - 60000]; and a later call that finds this
    cache returns the cached token, leaving the state as it is, exactly
    when its instant is before that expiry.  From the expiry on the cache
    gives nothing, which is no error: the call goes on to a new exchange
    and returns what that grants.  So a call [T - 60 - 1] seconds after
    [now] is served the token and a call [T - 60 + 1] seconds after
    [now] is not.  (The instants and products are safe integers, where
    the arithmetic of the language is exact.) *)
Theorem token_cache_validity (st : State) (access_token : Js.value) (T : Z) :
  cachedToken (accessTokenCache st) (clock st) = None ->
  granted (snd (network (calls st) exchange))
    = Some (access_token, Js.VNum (Js.Int T)) ->
  Js.truthy access_token = true ->
  let stored := snd (acquire st) in
  let now := clock stored in
  let expiry := now + T * 1000 - 60000 in
  Js.isSafeInteger now -> Js.isSafeInteger (T * 1000) ->
  Js.isSafeInteger (now + T * 1000) -> Js.isSafeInteger expiry ->
  fst (acquire st) = Return access_token /\
  accessTokenCache stored = {| token := access_token; expires := Js.Int expiry |} /\
  forall later : State,
    accessTokenCache later = accessTokenCache stored ->
    (acquire later = (Return access_token, later) <-> clock later < expiry) /\
    (expiry <= clock later ->
     cachedToken (accessTokenCache later) (clock later) = None /\
     calls (snd (acquire later)) = (calls later ++ [exchange])%list /\
     forall renewed expires_in,
       granted (snd (network (calls later) exchange)) = Some (renewed, expires_in) ->
       fst (acquire later) = Return renewed) /\
    (clock later = now + (T - 60 - 1) * 1000 ->
     acquire later = (Return access_token, later)) /\
    (clock later = now + (T - 60 + 1) * 1000 ->
     cachedToken (accessTokenCache later) (clock later) = None /\
     calls (snd (acquire later)) = (calls later ++ [exchange])%list).
Proof.
  intros M G Htok stored now expiry _ _ _ _.
  assert (A : acquire st =
    (Return access_token,
     withCache (afterFetch st exchange (fst (network (calls st) exchange)))
       (cacheToken StringToNumber access_token (Js.VNum (Js.Int T))
          (clock (afterFetch st exchange (fst (network (calls st) exchange))))))).
  { rewrite (getAccessToken_miss st M). cbn zeta. now rewrite G. }
  assert (C : accessTokenCache stored
              = cacheToken StringToNumber access_token (Js.VNum (Js.Int T)) now).
  { subst now stored. rewrite A. reflexivity. }
  split; [now rewrite A|]. split; [rewrite C; reflexivity|].
  intros later E.
  assert (R : cachedToken (accessTokenCache later) (clock later)
              = if clock later <? expiry then Some access_token else None).
  { rewrite E, C. now apply cacheToken_cachedToken. }
  assert (Hit : clock later < expiry -> acquire later = (Return access_token, later)).
  { intros L. apply getAccessToken_hit. rewrite R.
    apply Z.ltb_lt in L. now rewrite L. }
  assert (Miss : expiry <= clock later ->
            cachedToken (accessTokenCache later) (clock later) = None).
  { intros L. rewrite R. apply Z.ltb_ge in L. now rewrite L. }
  assert (Calls : expiry <= clock later ->
            calls (snd (acquire later)) = (calls later ++ [exchange])%list).
  { intros L. rewrite (getAccessToken_miss later (Miss L)). cbn zeta.
    destruct (granted (snd (network (calls later) exchange))) as [[a e]|]; reflexivity. }
  split; [|split; [|split]].
  - split; [|exact Hit].
    intros Hret. destruct (Z.lt_ge_cases (clock later) expiry) as [L | L]; [exact L|].
    exfalso. apply Calls in L. rewrite Hret in L. cbn [snd] in L.
    symmetry in L. now apply list_snoc_neq in L.
  - intros L. split; [now apply Miss|]. split; [now apply Calls|].
    intros renewed expires_in G'.
    rewrite (getAccessToken_miss later (Miss L)). cbn zeta. now rewrite G'.
  - intros Hc. apply Hit. rewrite Hc. subst expiry. lia.
  - intros Hc. assert (L : expiry <= clock later) by (rewrite Hc; subst expiry; lia).
    split; [now apply Miss | now apply Calls].
Qed.

(** C2. If the cache holds a token whose expiry is strictly in the
    future, [getAccessToken] returns that token and leaves the state as
    it is: no call is made.  Otherwise it makes exactly one call, the
    token exchange, and when the exchange returns an [access_token] and
    an [expires_in] it stores them in the cache and returns the new
    token. *)
Theorem acquire_uses_cache_or_exchanges_once (st : State) :
  (Js.truthy (token (accessTokenCache st)) = true ->
   Js.lt (Js.Int (clock st)) (expires (accessTokenCache st)) = true ->
   acquire st = (Return (token (accessTokenCache st)), st)) /\
  (Js.truthy (token (accessTokenCache st)) = false \/
   Js.lt (Js.Int (clock st)) (expires (accessTokenCache st)) = false ->
   calls (snd (acquire st)) = (calls st ++ [exchange])%list /\
   forall access_token expires_in,
     granted (snd (network (calls st) exchange)) = Some (access_token, expires_in) ->
     fst (acquire st) = Return access_token /\
     accessTokenCache (snd (acquire st)) =
       {| token := access_token;
          expires := Js.sub (Js.add (Js.Int (clock (snd (acquire st))))
                               (Js.mul (ToNumber StringToNumber expires_in) (Js.Int 1000)))
                            (Js.Int 60000) |}).
Proof.
  split.
  - intros Ht Hl. apply getAccessToken_hit.
    rewrite cachedToken_spec, Ht, Hl. reflexivity.
  - intros Hmiss.
    assert (M : cachedToken (accessTokenCache st) (clock st) = None).
    { rewrite cachedToken_spec. destruct Hmiss as [-> | ->];
        [reflexivity | now rewrite andb_false_r]. }
    rewrite (getAccessToken_miss st M). cbn zeta.
    destruct (granted (snd (network (calls st) exchange))) as [[a e]|].
    + split; [reflexivity|]. intros a' e' [= <- <-]. split; reflexivity.
    + split; [reflexivity|]. discriminate.
Qed.

(** A second call right after a granted exchange, while the new token is
    valid, is served from the cache: one exchange for the two calls. *)
Lemma acquire_twice_exchanges_once (st : State) (access_token expires_in : Js.value) :
  cachedToken (accessTokenCache st) (clock st) = None ->
  granted (snd (network (calls st) exchange)) = Some (access_token, expires_in) ->
  cachedToken (accessTokenCache (snd (acquire st))) (clock (snd (acquire st)))
    = Some access_token ->
  acquire (snd (acquire st)) = (Return access_token, snd (acquire st)) /\
  calls (snd (acquire (snd (acquire st)))) = (calls st ++ [exchange])%list.
Proof.
  intros M G V. rewrite (getAccessToken_hit _ _ V). split; [reflexivity|].
  cbn [snd]. rewrite (getAccessToken_miss st M). cbn zeta. now rewrite G.
Qed.

(** C4. When the cache gives nothing and the exchange is rejected
    (network error), or its body is not JSON, or its status is not a
    success, [getAccessToken] throws the authentication error, which is
    not the CRM error; it returns no token and leaves the cache alone. *)
Theorem acquire_failure_is_authentication_error (st : State) :
  cachedToken (accessTokenCache st) (clock st) = None ->
  (match snd (network (calls st) exchange) with
   | Fetch.Rejected _ => True
   | Fetch.Resolved response =>
       Fetch.json response = None \/ Fetch.ok response = false
   end) ->
  fst (acquire st) = Throw AuthenticationError /\
  AuthenticationError <> CRMRequestError /\
  (forall access_token, fst (acquire st) <> Return access_token) /\
  accessTokenCache (snd (acquire st)) = accessTokenCache st.
Proof.
  intros M Hfail. rewrite (getAccessToken_miss st M). cbn zeta.
  assert (G : granted (snd (network (calls st) exchange)) = None).
  { destruct (snd (network (calls st) exchange)) as [reason | response];
      [reflexivity|]. unfold granted.
    destruct Hfail as [-> | Hok]; [reflexivity|].
    destruct (Fetch.json response); [now rewrite Hok | reflexivity]. }
  rewrite G. repeat split; try discriminate. 
Qed.

Lemma createZohoLead_cache (leadData : LeadRecord) (st : State) :
  accessTokenCache (snd (submit leadData st)) = accessTokenCache (snd (acquire st)).
Proof.
  unfold createZohoLead, try_catch, bind.
  destruct (acquire st) as [[accessToken | e] st1]; cbn; [|reflexivity].
  unfold fetch.
  destruct (network (calls st1) (leadRequest env accessToken leadData))
    as [elapsed [reason | response]]; cbn; [reflexivity|].
  unfold Response_json. destruct (Fetch.json response) as [data|]; cbn; [|reflexivity].
  destruct (Fetch.ok response); cbn; [reflexivity|].
  unfold prop. destruct (Js.get data "message"); reflexivity.
Qed.

(** C5. Whatever the CRM answers (a 401 included), the cache after
    [createZohoLead] is the cache [getAccessToken] left: the CRM call
    neither evicts nor changes the token or its expiry, and if the cache
    differs from the one before the call then a token exchange was made
    and it succeeded. *)
Theorem submit_leaves_cache_to_token_exchange (leadData : LeadRecord) (st : State) :
  accessTokenCache (snd (submit leadData st)) = accessTokenCache (snd (acquire st)) /\
  (forall cached, cachedToken (accessTokenCache st) (clock st) = Some cached ->
     accessTokenCache (snd (submit leadData st)) = accessTokenCache st) /\
  (accessTokenCache (snd (submit leadData st)) <> accessTokenCache st ->
     cachedToken (accessTokenCache st) (clock st) = None /\
     exists access_token expires_in,
       granted (snd (network (calls st) exchange)) = Some (access_token, expires_in) /\
       accessTokenCache (snd (submit leadData st)) =
         cacheToken StringToNumber access_token expires_in
           (clock st + fst (network (calls st) exchange))).
Proof.
  rewrite createZohoLead_cache. split; [reflexivity|]. split.
  - intros cached H. now rewrite (getAccessToken_hit st cached H).
  - intros Hne.
    destruct (cachedToken (accessTokenCache st) (clock st)) as [cached|] eqn:M.
    + rewrite (getAccessToken_hit st cached M) in Hne. now contradiction Hne.
    + split; [reflexivity|]. rewrite (getAccessToken_miss st M) in Hne |- *.
      cbn zeta in *.
      destruct (granted (snd (network (calls st) exchange))) as [[a e]|].
      * exists a, e. split; reflexivity.
      * now contradiction Hne.
Qed.

(** The guard of the cache read: a token that is the empty text is
    stored but never served. *)
Lemma empty_token_is_never_served (expires_in : Js.value) (now t : Z) :
  cachedToken (cacheToken StringToNumber (Js.VStr "") expires_in now) t = None.
Proof. reflexivity. Qed.

(** [createZohoLead] rethrows whatever [getAccessToken] threw as the CRM
    error: its caller sees one message for both failures. *)
Lemma createZohoLead_rethrows (leadData : LeadRecord) (st : State) (error : Error) :
  fst (acquire st) = Throw error ->
  submit leadData st = (Throw CRMRequestError, snd (acquire st)).
Proof.
  intros H. unfold createZohoLead, try_catch, bind.
  destruct (acquire st) as [[accessToken | e] st1]; [discriminate | reflexivity].
Qed.

End TokenProperties.

(** ** The lead mapper *)

(** C7. The form type [contact] gives the source "Website - Contact
    Form" and the status "Not Contacted"; [newsletter] gives "Website -
    Newsletter" and "Qualified"; any other form type, or none, gives
    "Website" and "Not Contacted". *)
Theorem form_type_table (formData : gmap string string) (formType : option string) :
  (formType = Some "contact" ->
   Lead_Source (mapFormDataToZohoLead formData formType) = "Website - Contact Form" /\
   Lead_Status (mapFormDataToZohoLead formData formType) = "Not Contacted") /\
  (formType = Some "newsletter" ->
   Lead_Source (mapFormDataToZohoLead formData formType) = "Website - Newsletter" /\
   Lead_Status (mapFormDataToZohoLead formData formType) = "Qualified") /\
  (formType <> Some "contact" -> formType <> Some "newsletter" ->
   Lead_Source (mapFormDataToZohoLead formData formType) = "Website" /\
   Lead_Status (mapFormDataToZohoLead formData formType) = "Not Contacted").
Proof.
  unfold mapFormDataToZohoLead. split; [|split].
  - intros ->. split; reflexivity.
  - intros ->. split; reflexivity.
  - intros Hc Hn.
    assert (Ec : Str.equals formType "contact" = false).
    { destruct formType as [ft|]; [|reflexivity]. apply String.eqb_neq. congruence. }
    assert (En : Str.equals formType "newsletter" = false).
    { destruct formType as [ft|]; [|reflexivity]. apply String.eqb_neq. congruence. }
    rewrite Ec, En. split; reflexivity.
Qed.

Lemma mapFormDataToZohoLead_names (formData : gmap string string)
    (formType : option string) :
  First_Name (mapFormDataToZohoLead formData formType)
    = First_Name (mapFormDataToZohoLead formData None) /\
  Last_Name (mapFormDataToZohoLead formData formType)
    = Last_Name (mapFormDataToZohoLead formData None).
Proof.
  unfold mapFormDataToZohoLead.
  destruct (Str.equals formType "contact"), (Str.equals formType "newsletter");
    split; reflexivity.
Qed.

(** C6, as the code has it.  The name is cut at its first space
    character: [First_Name] is the text before it (the whole name when
    there is no space) and [Last_Name] the text after it, unchanged, or
    "User" when that text is empty; an absent or empty name counts as
    "Unknown User", which gives "Unknown" and "User". *)
Theorem name_is_cut_at_first_space (formData : gmap string string)
    (formType : option string) :
  let name := Str.or_default (formData !! "name") "Unknown User" in
  let lead := mapFormDataToZohoLead formData formType in
  (Str.without " " name = true ->
   First_Name lead = name /\ Last_Name lead = "User") /\
  (forall first rest,
     name = first +:+ " " +:+ rest -> Str.without " " first = true ->
     First_Name lead = first /\
     Last_Name lead = if String.eqb rest "" then "User" else rest) /\
  (Str.falsy (formData !! "name") = true ->
   First_Name lead = "Unknown" /\ Last_Name lead = "User").
Proof.
  intros name lead. subst lead.
  destruct (mapFormDataToZohoLead_names formData formType) as [-> ->].
  unfold mapFormDataToZohoLead. cbn [First_Name Last_Name]. fold name.
  split; [|split].
  - intros W. now rewrite (split_without " " name W).
  - intros first rest E W. rewrite E.
    change (first +:+ " " +:+ rest) with (first +:+ String " " rest).
    rewrite (split_at_first " " first rest W).
    cbn [hd Str.slice1 tail]. now rewrite (join_split " " rest).
  - intros F. assert (E : name = "Unknown User").
    { subst name. destruct (formData !! "name") as [s|]; [|reflexivity].
      simpl in F |- *. now rewrite F. }
    rewrite E. split; reflexivity.
Qed.

(** C9. Two submissions with the same fields and the same values, mapped
    under the same form type, give the same lead record, field by
    field. *)
Theorem mapping_is_deterministic (formData1 formData2 : gmap string string)
    (formType1 formType2 : option string) :
  (forall field, formData1 !! field = formData2 !! field) ->
  formType1 = formType2 ->
  let lead1 := mapFormDataToZohoLead formData1 formType1 in
  let lead2 := mapFormDataToZohoLead formData2 formType2 in
  lead1 = lead2 /\
  First_Name lead1 = First_Name lead2 /\ Last_Name lead1 = Last_Name lead2 /\
  Email lead1 = Email lead2 /\ Phone lead1 = Phone lead2 /\
  Company lead1 = Company lead2 /\ Lead_Source lead1 = Lead_Source lead2 /\
  Lead_Status lead1 = Lead_Status lead2 /\ Description lead1 = Description lead2.
Proof.
  intros Hfields <- lead1 lead2.
  assert (E : lead1 = lead2).
  { subst lead1 lead2. f_equal. now apply map_eq. }
  rewrite E. repeat split; reflexivity.
Qed.

(** ** The validator *)

Lemma blank_spec (field : option string) :
  blank field = match field with
                | Some s => Str.all_white_space s
                | None => true
                end.
Proof.
  destruct field as [s|]; [|reflexivity]. unfold blank.
  rewrite trim_blank. destruct s; reflexivity.
Qed.

Lemma validateFormData_eq (formData : gmap string string) :
  validateFormData formData =
    ((if blank (formData !! "name") then ["Name is required"] else []) ++
     (if blank (formData !! "email") then ["Email is required"] else []) ++
     (match formData !! "email" with
      | Some email =>
          if negb (String.eqb email "") && negb (Regex.test emailRegex email)
          then ["Invalid email format"] else []
      | None => []
      end))%list.
Proof.
  unfold validateFormData.
  destruct (blank (formData !! "name")), (blank (formData !! "email")),
    (formData !! "email") as [email|]; try reflexivity;
    destruct (negb (String.eqb email "") && negb (Regex.test emailRegex email));
    reflexivity.
Qed.

(** A text that starts with whitespace does not match the email pattern. *)
Lemma emailRegex_rejects_leading_space (c : ascii) (s : string) :
  Str.is_white_space c = true -> Regex.test emailRegex (String c s) = false.
Proof.
  intros W. destruct (Regex.test emailRegex (String c s)) eqn:T; [|reflexivity].
  apply emailRegex_spec in T as (loc & dom & tld & E & [Hne Hl] & _).
  destruct loc as [|c0 loc]; [congruence|].
  simpl in E. injection E as <- _. simpl in Hl.
  unfold notSpaceOrAt in Hl. rewrite W in Hl. discriminate.
Qed.

(** The validator accepts exactly the forms whose name is not blank and
    whose email is not blank and has the [local@domain.tld] shape. *)
Lemma validateFormData_accepts (formData : gmap string string) :
  validateFormData formData = [] <->
  (exists name, formData !! "name" = Some name /\ Str.all_white_space name = false) /\
  (exists email, formData !! "email" = Some email /\
                 Str.all_white_space email = false /\ Spec.emailShape email).
Proof.
  rewrite validateFormData_eq, !blank_spec. split.
  - intros H. apply app_eq_nil in H as [Hn H]. apply app_eq_nil in H as [He Hi].
    split.
    + destruct (formData !! "name") as [name|]; [|discriminate].
      exists name. split; [reflexivity|].
      destruct (Str.all_white_space name); [discriminate | reflexivity].
    + destruct (formData !! "email") as [email|]; [|discriminate].
      exists email. split; [reflexivity|].
      destruct (Str.all_white_space email) eqn:W; [discriminate|].
      split; [reflexivity|]. apply emailRegex_spec.
      destruct email as [|c email]; [discriminate|].
      destruct (Regex.test emailRegex (String c email)); [reflexivity | discriminate].
  - intros [(name & -> & Wn) (email & -> & We & Shape)].
    rewrite Wn, We. apply emailRegex_spec in Shape. now rewrite Shape, andb_false_r.
Qed.

(** ** The handler *)

Section HandlerProperties.

Variable env : gmap string string.
Variable network : list Fetch.Request -> Fetch.Request -> Z * Fetch.Outcome.
Variable StringToNumber : string -> Js.number.
Variable URLSearchParams : string -> list (string * string).

Local Abbreviation serve := (handler env network StringToNumber URLSearchParams).
Local Abbreviation parse := (parseFormData URLSearchParams).
Local Abbreviation submit := (createZohoLead env network StringToNumber).

Lemma handler_rejects_invalid (req : Http.Req) (st : State) :
  Http.method req = "POST" ->
  validateFormData (parse (Http.body req)) <> [] ->
  serve req st =
    (respond 400
       (Http.Failure
          ("Validation failed: "
           +:+ Str.join ", " (validateFormData (parse (Http.body req))))
          (clock st)),
     st).
Proof.
  intros Hm Hne. unfold handler, handlePost. rewrite Hm. cbn [String.eqb negb].
  change (String.eqb "POST" "OPTIONS") with false.
  change (String.eqb "POST" "POST") with true. cbn [negb].
  destruct (validateFormData (parse (Http.body req))) as [|e errors];
    [congruence|]. reflexivity.
Qed.

Lemma handler_accepts_valid (req : Http.Req) (st : State) :
  Http.method req = "POST" ->
  validateFormData (parse (Http.body req)) = [] ->
  serve req st =
    let formData := parse (Http.body req) in
    let formType := Str.or_default (formData !! "form_type") "general" in
    match bind (submit (mapFormDataToZohoLead formData (Some formType))) acknowledge st with
    | (Return res, st') => (res, st')
    | (Throw error, st') =>
        (respond 500
           (Http.Failure
              (if String.eqb (message error) "" then "An error occurred"
               else message error)
              (clock st')),
         st')
    end.
Proof.
  intros Hm Hv. unfold handler, handlePost. rewrite Hm, Hv.
  change (String.eqb "POST" "OPTIONS") with false.
  change (String.eqb "POST" "POST") with true. reflexivity.
Qed.

(** What [acknowledge] does when the condition holds and the identifier
    can be read. *)
Lemma acknowledge_created (zohoResponse id : Js.value) (st : State) :
  createdLead zohoResponse id ->
  acknowledge zohoResponse st =
    (Return (respond 200
               (Http.Success "Lead created successfully in Zoho CRM" id (clock st))),
     st).
Proof.
  intros (first & details & (data & Hd & Td & Hf & Tf & status & Hs & Es) & Hdet & Hid).
  unfold acknowledge, bind, prop, prop0, ret, Date_now.
  rewrite Hd. cbn. rewrite Td, Hf. cbn. rewrite Tf, Hs. cbn. rewrite Es.
  rewrite Hdet. cbn. now rewrite Hid.
Qed.

(** When the condition fails, [acknowledge] throws the CRM error. *)
Lemma acknowledge_refused (zohoResponse : Js.value) (st : State) :
  Js.nullish zohoResponse = false ->
  (forall first, ~ firstEntrySucceeded zohoResponse first) ->
  acknowledge zohoResponse st = (Throw CRMRequestError, st).
Proof.
  intros Hn Hno. unfold acknowledge, bind, prop, prop0, ret, throw.
  destruct (Js.get zohoResponse "data") as [data|] eqn:Hd;
    [|destruct zohoResponse; discriminate].
  destruct (Js.truthy data) eqn:Td; [|reflexivity].
  destruct (Js.get0 data) as [first|] eqn:Hf; [|destruct data; discriminate].
  destruct (Js.truthy first) eqn:Tf; [|reflexivity].
  destruct (Js.get first "status") as [status|] eqn:Hs; [|destruct first; discriminate].
  destruct (Js.strict_eq_str status "success") eqn:Es; [|reflexivity].
  exfalso. apply (Hno first). exists data. repeat split; auto. exists status. auto.
Qed.

(** [acknowledge] returns a response only in the first of these cases. *)
Lemma acknowledge_returns (zohoResponse : Js.value) (st st' : State) (res : Http.Res) :
  acknowledge zohoResponse st = (Return res, st') ->
  exists id, createdLead zohoResponse id.
Proof.
  unfold acknowledge, bind, prop, prop0, ret, throw, Date_now.
  destruct (Js.get zohoResponse "data") as [data|] eqn:Hd; [|discriminate].
  destruct (Js.truthy data) eqn:Td; [|discriminate].
  destruct (Js.get0 data) as [first|] eqn:Hf; [|discriminate].
  destruct (Js.truthy first) eqn:Tf; [|discriminate].
  destruct (Js.get first "status") as [status|] eqn:Hs; [|discriminate].
  destruct (Js.strict_eq_str status "success") eqn:Es; [|discriminate].
  destruct (Js.get first "details") as [details|] eqn:Hdet; [|discriminate].
  destruct (Js.get details "id") as [id|] eqn:Hid; [|discriminate].
  intros _. exists id, first, details. repeat split; auto.
  exists data. repeat split; auto. exists status. auto.
Qed.

Lemma acknowledged_createdLead (zohoResponse id : Js.value) :
  Spec.acknowledged zohoResponse id -> createdLead zohoResponse id.
Proof.
  intros (entry & details & Hd & Hs & Hdet & Hid & _).
  exists entry, details. repeat split; auto.
  exists (Js.VArr [entry]). repeat split; auto.
  - destruct entry; try discriminate. reflexivity.
  - exists (Js.VStr "success"). auto.
Qed.

(** C3, as the code has it.  After a valid POST whose lead the CRM
    answered with a success status and the JSON body [zohoResponse], the
    handler answers 200 exactly when [zohoResponse.data] is there, its
    first entry is there with a status equal to "success", and the
    details of that entry can be read; [leadId] is then the [id] of those
    details.  A body of the shape the specification describes is such a
    body.  When the body is not [null] and [data] or its first entry is
    missing, or the status is not "success", the handler answers 500
    with the CRM error; the body [null] is answered 500 as well. *)
Theorem handler_reports_first_entry (req : Http.Req) (st st' : State)
    (zohoResponse : Js.value) :
  Http.method req = "POST" ->
  validateFormData (parse (Http.body req)) = [] ->
  submit
    (mapFormDataToZohoLead (parse (Http.body req))
       (Some (Str.or_default (parse (Http.body req) !! "form_type") "general")))
    st = (Return zohoResponse, st') ->
  (forall id, createdLead zohoResponse id ->
     serve req st =
       (respond 200
          (Http.Success "Lead created successfully in Zoho CRM" id (clock st')),
        st')) /\
  (Http.statusCode (fst (serve req st)) = 200 <->
     exists id, createdLead zohoResponse id) /\
  (forall id, Spec.acknowledged zohoResponse id -> createdLead zohoResponse id) /\
  (Js.nullish zohoResponse = false ->
   (forall first, ~ firstEntrySucceeded zohoResponse first) ->
   serve req st =
     (respond 500 (Http.Failure "Failed to create lead in Zoho CRM" (clock st')), st')) /\
  (Js.nullish zohoResponse = true ->
   Http.statusCode (fst (serve req st)) = 500 /\ snd (serve req st) = st').
Proof.
  intros Hm Hv Hs. rewrite (handler_accepts_valid req st Hm Hv). cbn zeta.
  unfold bind. rewrite Hs.
  assert (Created : forall id, createdLead zohoResponse id ->
            acknowledge zohoResponse st'
            = (Return (respond 200
                 (Http.Success "Lead created successfully in Zoho CRM" id (clock st'))),
               st'))
    by (intros id C; now apply acknowledge_created).
  split; [|split; [|split; [|split]]].
  - intros id C. now rewrite (Created id C).
  - split.
    + destruct (acknowledge zohoResponse st') as [[res | error] st2] eqn:A.
      * intros _. now apply (acknowledge_returns zohoResponse st' st2 res).
      * cbn. discriminate.
    + intros [id C]. now rewrite (Created id C).
  - apply acknowledged_createdLead.
  - intros Hn Hno. now rewrite (acknowledge_refused zohoResponse st' Hn Hno).
  - intros Hn. unfold acknowledge, bind, prop.
    destruct zohoResponse; try discriminate Hn; split; reflexivity.
Qed.

(** C8. The validator accepts a form exactly when its name is not blank
    and its email is not blank and has the [local@domain.tld] shape; an
    empty name is reported as "Name is required" and the email
    [not-an-email] as "Invalid email format"; and a POST whose form has
    any error is answered 400 with the text "Validation failed: "
    followed by the messages joined by ", " (and nothing is sent to
    Zoho). *)
Theorem validation_failure_is_400 (req : Http.Req) (st : State) :
  Http.method req = "POST" ->
  validateFormData (parse (Http.body req)) <> [] ->
  (forall formData : gmap string string,
     validateFormData formData = [] <->
     (exists name, formData !! "name" = Some name /\
                   Str.all_white_space name = false) /\
     (exists email, formData !! "email" = Some email /\
                    Str.all_white_space email = false /\ Spec.emailShape email)) /\
  In "Name is required"
     (validateFormData (<["name" := ""]> (<["email" := "x@y.com"]> ∅))) /\
  In "Invalid email format"
     (validateFormData (<["name" := "A"]> (<["email" := "not-an-email"]> ∅))) /\
  serve req st =
    (respond 400
       (Http.Failure
          ("Validation failed: "
           +:+ Str.join ", " (validateFormData (parse (Http.body req))))
          (clock st)),
     st).
Proof.
  intros Hm Hne. split; [apply validateFormData_accepts|].
  split; [vm_compute; auto|]. split; [vm_compute; auto|].
  now apply handler_rejects_invalid.
Qed.

(** C10. An email that is not empty but is whitespace throughout is
    reported twice, as "Email is required" and as "Invalid email
    format"; the 400 answer to such a POST joins both messages. *)
Theorem whitespace_email_is_reported_twice (formData : gmap string string)
    (email : string) :
  formData !! "email" = Some email ->
  email <> "" ->
  Str.all_white_space email = true ->
  In "Email is required" (validateFormData formData) /\
  In "Invalid email format" (validateFormData formData) /\
  validateFormData formData =
    ((if blank (formData !! "name") then ["Name is required"] else [])
     ++ ["Email is required"; "Invalid email format"])%list /\
  forall req st,
    Http.method req = "POST" -> parse (Http.body req) = formData ->
    serve req st =
      (respond 400
         (Http.Failure
            ("Validation failed: "
             +:+ Str.join ", "
                   ((if blank (formData !! "name") then ["Name is required"] else [])
                    ++ ["Email is required"; "Invalid email format"])%list)
            (clock st)),
       st).
Proof.
  intros He Hne W.
  assert (E : validateFormData formData =
    ((if blank (formData !! "name") then ["Name is required"] else [])
     ++ ["Email is required"; "Invalid email format"])%list).
  { rewrite validateFormData_eq, He, (blank_spec (Some email)), W.
    destruct email as [|c email]; [congruence|].
    unfold Str.all_white_space in W. simpl in W. apply andb_prop in W as [Wc _].
    rewrite (emailRegex_rejects_leading_space c email Wc). reflexivity. }
  rewrite E. repeat split.
  - apply in_or_app. right. simpl. auto.
  - apply in_or_app. right. simpl. auto.
  - intros req st Hm Hp. rewrite <- E, <- Hp.
    apply handler_rejects_invalid; [assumption|].
    rewrite Hp, E. now destruct (blank (formData !! "name")).
Qed.

End HandlerProperties.

(** * The properties on concrete runs *)

(** A token of 3600 seconds granted on a cold start and stored at the
    instant 1120: served 3539 seconds later, asked for anew 3541 seconds
    later. *)
Lemma token_cache_validity_witness :
  let grant := Demo.tokenGranted "1000.tok" 3600 in
  let stored := snd (Demo.acquire grant Demo.tokenRefused (Demo.coldStart 1000)) in
  let at_ (t : Z) := {| accessTokenCache := accessTokenCache stored;
                        clock := t; calls := [] |} in
  accessTokenCache stored
    = {| token := Js.VStr "1000.tok"; expires := Js.Int 3541120 |} /\
  Demo.acquire grant Demo.tokenRefused (at_ 3540120)
    = (Return (Js.VStr "1000.tok"), at_ 3540120) /\
  calls (snd (Demo.acquire grant Demo.tokenRefused (at_ 3542120)))
    = [tokenRequest Demo.env].
Proof.
  intros grant stored at_.
  destruct (token_cache_validity Demo.env (Demo.network grant Demo.tokenRefused)
              Demo.StringToNumber (Demo.coldStart 1000) (Js.VStr "1000.tok") 3600
              eq_refl eq_refl eq_refl)
    as (_ & Hcache & Hlater).
  - vm_compute. split; discriminate.
  - vm_compute. split; discriminate.
  - vm_compute. split; discriminate.
  - vm_compute. split; discriminate.
  - split; [exact Hcache|]. split.
    + destruct (Hlater (at_ 3540120) eq_refl) as (_ & _ & Hbefore & _).
      apply Hbefore. reflexivity.
    + destruct (Hlater (at_ 3542120) eq_refl) as (_ & _ & _ & Hafter).
      destruct (Hafter eq_refl) as [_ Hcalls]. exact Hcalls.
Defined.

(** A warm cache is served as it is; a cold start makes the one call. *)
Lemma acquire_uses_cache_or_exchanges_once_witness :
  Demo.acquire (Demo.tokenGranted "1000.tok" 3600) Demo.tokenRefused (Demo.warm 2000)
    = (Return (Js.VStr "1000.cached"), Demo.warm 2000) /\
  calls (snd (Demo.acquire (Demo.tokenGranted "1000.tok" 3600) Demo.tokenRefused
                (Demo.coldStart 1000)))
    = [tokenRequest Demo.env] /\
  accessTokenCache
    (snd (Demo.acquire (Demo.tokenGranted "1000.tok" 3600) Demo.tokenRefused
            (Demo.coldStart 1000)))
    = {| token := Js.VStr "1000.tok"; expires := Js.Int 3541120 |}.
Proof.
  split.
  - apply (acquire_uses_cache_or_exchanges_once Demo.env
             (Demo.network (Demo.tokenGranted "1000.tok" 3600) Demo.tokenRefused)
             Demo.StringToNumber (Demo.warm 2000)); reflexivity.
  - destruct (acquire_uses_cache_or_exchanges_once Demo.env
                (Demo.network (Demo.tokenGranted "1000.tok" 3600) Demo.tokenRefused)
                Demo.StringToNumber (Demo.coldStart 1000)) as [_ Hmiss].
    destruct (Hmiss (or_introl eq_refl)) as [Hcalls Hgrant].
    split; [exact Hcalls|].
    destruct (Hgrant (Js.VStr "1000.tok") (Js.VNum (Js.Int 3600)) eq_refl) as [_ Hc].
    exact Hc.
Defined.

(** On a cold start, an exchange answered 400 is an authentication error. *)
Lemma acquire_failure_is_authentication_error_witness :
  fst (Demo.acquire Demo.tokenRefused (Demo.crmAnswers 200 Demo.oneEntry)
         (Demo.coldStart 1000))
    = Throw AuthenticationError /\
  accessTokenCache
    (snd (Demo.acquire Demo.tokenRefused (Demo.crmAnswers 200 Demo.oneEntry)
            (Demo.coldStart 1000)))
    = initialCache.
Proof.
  destruct (acquire_failure_is_authentication_error Demo.env
              (Demo.network Demo.tokenRefused (Demo.crmAnswers 200 Demo.oneEntry))
              Demo.StringToNumber (Demo.coldStart 1000) eq_refl
              (or_intror eq_refl)) as (Hthrow & _ & _ & Hcache).
  split; [exact Hthrow | exact Hcache].
Defined.

(** A 401 from the CRM leaves the cached token where it was. *)
Lemma submit_leaves_cache_to_token_exchange_witness :
  accessTokenCache
    (snd (Demo.submit (Demo.tokenGranted "1000.tok" 3600)
            (Demo.crmAnswers 401 (Js.VObj [("message", Js.VStr "invalid oauth token")]))
            (mapFormDataToZohoLead (Demo.form [("name", "Jane Doe")]) None)
            (Demo.warm 2000)))
    = accessTokenCache (Demo.warm 2000).
Proof.
  apply (submit_leaves_cache_to_token_exchange Demo.env
           (Demo.network (Demo.tokenGranted "1000.tok" 3600)
              (Demo.crmAnswers 401 (Js.VObj [("message", Js.VStr "invalid oauth token")])))
           Demo.StringToNumber
           (mapFormDataToZohoLead (Demo.form [("name", "Jane Doe")]) None)
           (Demo.warm 2000))
    with (cached := Js.VStr "1000.cached").
  reflexivity.
Defined.

(** "Ann Lee" under [newsletter]. *)
Lemma form_type_table_witness :
  let lead := mapFormDataToZohoLead
                (Demo.form [("name", "Ann Lee"); ("email", "a@b.com")])
                (Some "newsletter") in
  Lead_Source lead = "Website - Newsletter" /\ Lead_Status lead = "Qualified".
Proof.
  apply (form_type_table (Demo.form [("name", "Ann Lee"); ("email", "a@b.com")])
           (Some "newsletter")).
  reflexivity.
Defined.

(** "Jane Mary Doe" is cut after "Jane". *)
Lemma name_is_cut_at_first_space_witness :
  let lead := mapFormDataToZohoLead (Demo.form [("name", "Jane Mary Doe")]) None in
  First_Name lead = "Jane" /\ Last_Name lead = "Mary Doe".
Proof.
  destruct (name_is_cut_at_first_space (Demo.form [("name", "Jane Mary Doe")]) None)
    as (_ & Hcut & _).
  apply (Hcut "Jane" "Mary Doe"); reflexivity.
Defined.

(** The same form, built twice. *)
Lemma mapping_is_deterministic_witness :
  mapFormDataToZohoLead (Demo.form [("name", "Ann Lee"); ("email", "a@b.com")])
    (Some "newsletter")
  = mapFormDataToZohoLead (Demo.form [("email", "a@b.com"); ("name", "Ann Lee")])
      (Some "newsletter").
Proof.
  apply (mapping_is_deterministic
           (Demo.form [("name", "Ann Lee"); ("email", "a@b.com")])
           (Demo.form [("email", "a@b.com"); ("name", "Ann Lee")])
           (Some "newsletter") (Some "newsletter")).
  - intros field. reflexivity.
  - reflexivity.
Defined.

(** Jane Doe's contact form, a fresh token and one created lead: 200 with
    the identifier 42. *)
Lemma handler_reports_first_entry_witness :
  fst (Demo.serve (Demo.tokenGranted "1000.tok" 3600)
         (Demo.crmAnswers 200 Demo.oneEntry) Demo.jane (Demo.coldStart 1000))
  = respond 200
      (Http.Success "Lead created successfully in Zoho CRM" (Js.VStr "42") 1370).
Proof.
  assert (Hsubmit :
    createZohoLead Demo.env
      (Demo.network (Demo.tokenGranted "1000.tok" 3600)
         (Demo.crmAnswers 200 Demo.oneEntry))
      Demo.StringToNumber
      (mapFormDataToZohoLead (parseFormData Demo.URLSearchParams (Http.body Demo.jane))
         (Some (Str.or_default
                  (parseFormData Demo.URLSearchParams (Http.body Demo.jane)
                     !! "form_type") "general")))
      (Demo.coldStart 1000)
    = (Return Demo.oneEntry,
       snd (Demo.submit (Demo.tokenGranted "1000.tok" 3600)
              (Demo.crmAnswers 200 Demo.oneEntry)
              (mapFormDataToZohoLead (Demo.form [("name", "Jane Doe");
                                                 ("email", "jane@co.com");
                                                 ("form_type", "contact")])
                 (Some "contact"))
              (Demo.coldStart 1000)))) by (vm_compute; reflexivity).
  destruct (handler_reports_first_entry Demo.env _ Demo.StringToNumber
              Demo.URLSearchParams Demo.jane (Demo.coldStart 1000) _ Demo.oneEntry
              eq_refl ltac:(vm_compute; reflexivity) Hsubmit) as (Hcreated & _).
  unfold Demo.serve. rewrite (Hcreated (Js.VStr "42")); [reflexivity|].
  exists (Demo.entry "success" [("id", Js.VStr "42")]), (Js.VObj [("id", Js.VStr "42")]).
  repeat split.
  exists (Js.VArr [Demo.entry "success" [("id", Js.VStr "42")]]).
  repeat split. exists (Js.VStr "success"). split; reflexivity.
Defined.

(** C3 as stated fails: a body with two entries, and a body whose only
    entry carries no identifier, are both answered 200, though neither
    has the shape the specification asks for. *)
Lemma success_without_the_described_shape :
  (fst (Demo.serve (Demo.tokenGranted "1000.tok" 3600)
          (Demo.crmAnswers 200 Demo.twoEntries) Demo.jane (Demo.coldStart 1000))
   = respond 200
       (Http.Success "Lead created successfully in Zoho CRM" (Js.VStr "42") 1370) /\
   forall id, ~ Spec.acknowledged Demo.twoEntries id) /\
  (fst (Demo.serve (Demo.tokenGranted "1000.tok" 3600)
          (Demo.crmAnswers 200 Demo.noIdentifier) Demo.jane (Demo.coldStart 1000))
   = respond 200
       (Http.Success "Lead created successfully in Zoho CRM" Js.VUndefined 1370) /\
   forall id, ~ Spec.acknowledged Demo.noIdentifier id).
Proof.
  split; (split; [vm_compute; reflexivity|]).
  - intros id (entry & details & Hd & _). vm_compute in Hd. discriminate.
  - intros id (entry & details & Hd & _ & Hdet & Hid & Hdef).
    vm_compute in Hd. injection Hd as <-.
    vm_compute in Hdet. injection Hdet as <-.
    vm_compute in Hid. injection Hid as <-. now apply Hdef.
Qed.

(** C6 as stated fails: a tab is whitespace but does not end the first
    name, and a second space stays in front of the last name. *)
Lemma first_name_is_not_the_first_token :
  First_Name
    (mapFormDataToZohoLead
       (<["name" := "Ann" +:+ String "009" "Lee"]> ∅) None)
    <> Spec.firstToken ("Ann" +:+ String "009" "Lee") /\
  Last_Name (mapFormDataToZohoLead (<["name" := "Ann  Lee"]> ∅) None)
    <> Spec.remainderJoined "Ann  Lee".
Proof. split; vm_compute; discriminate. Qed.

(** An empty name in a POST: 400. *)
Lemma validation_failure_is_400_witness :
  Demo.serve (Demo.tokenGranted "1000.tok" 3600) (Demo.crmAnswers 200 Demo.oneEntry)
    (Demo.post [("name", ""); ("email", "x@y.com")]) (Demo.coldStart 1000)
  = (respond 400 (Http.Failure "Validation failed: Name is required" 1000),
     Demo.coldStart 1000).
Proof.
  destruct (validation_failure_is_400 Demo.env
              (Demo.network (Demo.tokenGranted "1000.tok" 3600)
                 (Demo.crmAnswers 200 Demo.oneEntry))
              Demo.StringToNumber Demo.URLSearchParams
              (Demo.post [("name", ""); ("email", "x@y.com")]) (Demo.coldStart 1000)
              eq_refl ltac:(vm_compute; discriminate)) as (_ & _ & _ & H).
  exact H.
Defined.

(** An email made of one space: both messages. *)
Lemma whitespace_email_is_reported_twice_witness :
  validateFormData (Demo.form [("name", "A"); ("email", " ")])
  = ["Email is required"; "Invalid email format"] /\
  Demo.serve (Demo.tokenGranted "1000.tok" 3600) (Demo.crmAnswers 200 Demo.oneEntry)
    (Demo.post [("name", "A"); ("email", " ")]) (Demo.coldStart 1000)
  = (respond 400
       (Http.Failure "Validation failed: Email is required, Invalid email format" 1000),
     Demo.coldStart 1000).
Proof.
  destruct (whitespace_email_is_reported_twice Demo.env
              (Demo.network (Demo.tokenGranted "1000.tok" 3600)
                 (Demo.crmAnswers 200 Demo.oneEntry))
              Demo.StringToNumber Demo.URLSearchParams
              (Demo.form [("name", "A"); ("email", " ")]) " "
              eq_refl ltac:(discriminate) eq_refl) as (_ & _ & Hlist & Hserve).
  split; [exact Hlist|].
  exact (Hserve (Demo.post [("name", "A"); ("email", " ")]) (Demo.coldStart 1000)
           eq_refl eq_refl).
Defined.

(** * Further properties of the module *)

(** ** The token provider, beyond the cache contract *)

Section MoreTokenProperties.

Variable env : gmap string string.
Variable network : list Fetch.Request -> Fetch.Request -> Z * Fetch.Outcome.
Variable StringToNumber : string -> Js.number.

Local Abbreviation acquire := (getAccessToken env network StringToNumber).
Local Abbreviation submit := (createZohoLead env network StringToNumber).
Local Abbreviation exchange := (tokenRequest env).

Lemma acquire_miss_calls (st : State) :
  cachedToken (accessTokenCache st) (clock st) = None ->
  calls (snd (acquire st)) = (calls st ++ [exchange])%list.
Proof.
  intros M. rewrite (getAccessToken_miss env network StringToNumber st M). cbn zeta.
  destruct (granted (snd (network (calls st) exchange))) as [[a e]|]; reflexivity.
Qed.

Lemma acquire_granted (st : State) (access_token expires_in : Js.value) :
  cachedToken (accessTokenCache st) (clock st) = None ->
  granted (snd (network (calls st) exchange)) = Some (access_token, expires_in) ->
  fst (acquire st) = Return access_token /\
  accessTokenCache (snd (acquire st))
    = cacheToken StringToNumber access_token expires_in (clock (snd (acquire st))).
Proof.
  intros M G. rewrite (getAccessToken_miss env network StringToNumber st M).
  cbn zeta. rewrite G. split; reflexivity.
Qed.

(** X1. Whatever goes wrong in [getAccessToken], the error it throws is
    the authentication error, and a call that throws leaves the cache as
    it found it. *)
Theorem acquire_throws_only_authentication_error (st : State) (error : Error) :
  fst (acquire st) = Throw error ->
  error = AuthenticationError /\
  accessTokenCache (snd (acquire st)) = accessTokenCache st.
Proof.
  destruct (cachedToken (accessTokenCache st) (clock st)) as [cached|] eqn:M.
  - rewrite (getAccessToken_hit env network StringToNumber st cached M). discriminate.
  - rewrite (getAccessToken_miss env network StringToNumber st M). cbn zeta.
    destruct (granted (snd (network (calls st) exchange))) as [[a e]|]; cbn.
    + discriminate.
    + intros [= <-]. split; reflexivity.
Qed.

(** X2. A success answer without a usable [access_token] (none, [null],
    or the empty text) is no error: [getAccessToken] returns that value
    as the token.  It is stored but never served, so every later call
    makes a new exchange. *)
Theorem falsy_token_is_returned_and_never_served (st : State)
    (access_token expires_in : Js.value) :
  cachedToken (accessTokenCache st) (clock st) = None ->
  granted (snd (network (calls st) exchange)) = Some (access_token, expires_in) ->
  Js.truthy access_token = false ->
  fst (acquire st) = Return access_token /\
  token (accessTokenCache (snd (acquire st))) = access_token /\
  forall later : State,
    accessTokenCache later = accessTokenCache (snd (acquire st)) ->
    calls (snd (acquire later)) = (calls later ++ [exchange])%list.
Proof.
  intros M G F. destruct (acquire_granted st access_token expires_in M G) as [R C].
  split; [exact R|]. split; [now rewrite C|].
  intros later E. apply acquire_miss_calls.
  rewrite cachedToken_spec, E, C. cbn [token cacheToken]. now rewrite F.
Qed.

(** X3. When [expires_in] is missing or is no number, the stored expiry
    is NaN and the token, though returned, is never served from the
    cache: every later call makes a new exchange. *)
Theorem token_without_lifetime_is_never_served (st : State)
    (access_token expires_in : Js.value) :
  cachedToken (accessTokenCache st) (clock st) = None ->
  granted (snd (network (calls st) exchange)) = Some (access_token, expires_in) ->
  ToNumber StringToNumber expires_in = Js.NaN ->
  fst (acquire st) = Return access_token /\
  expires (accessTokenCache (snd (acquire st))) = Js.NaN /\
  forall later : State,
    accessTokenCache later = accessTokenCache (snd (acquire st)) ->
    calls (snd (acquire later)) = (calls later ++ [exchange])%list.
Proof.
  intros M G N. destruct (acquire_granted st access_token expires_in M G) as [R C].
  assert (X : expires (accessTokenCache (snd (acquire st))) = Js.NaN)
    by (rewrite C; cbn [expires cacheToken]; now rewrite N).
  split; [exact R|]. split; [exact X|].
  intros later E. apply acquire_miss_calls.
  rewrite cachedToken_spec, E, X. cbn. now rewrite andb_false_r.
Qed.

(** X4. A token granted for 60 seconds or less is already past its
    stored expiry when it is stored: no later call (at the same instant
    or after) is served from the cache. *)
Theorem short_lived_token_is_never_served (st : State)
    (access_token : Js.value) (T : Z) :
  cachedToken (accessTokenCache st) (clock st) = None ->
  granted (snd (network (calls st) exchange))
    = Some (access_token, Js.VNum (Js.Int T)) ->
  T <= 60 ->
  forall later : State,
    accessTokenCache later = accessTokenCache (snd (acquire st)) ->
    clock (snd (acquire st)) <= clock later ->
    calls (snd (acquire later)) = (calls later ++ [exchange])%list.
Proof.
  intros M G HT later E Hclock.
  destruct (acquire_granted st access_token _ M G) as [_ C].
  apply acquire_miss_calls. rewrite cachedToken_spec, E, C.
  cbn [token expires cacheToken ToNumber Js.mul Js.add Js.sub Js.lt].
  assert (L : (clock later <? clock (snd (acquire st)) + T * 1000 - 60000) = false)
    by (apply Z.ltb_ge; lia).
  rewrite L. now rewrite andb_false_r.
Qed.

(** ** The lead submitter *)

Lemma createZohoLead_unfold (leadData : LeadRecord) (st : State) :
  submit leadData st =
    match acquire st with
    | (Throw _, st1) => (Throw CRMRequestError, st1)
    | (Return accessToken, st1) =>
        let rq := leadRequest env accessToken leadData in
        let st2 := afterFetch st1 rq (fst (network (calls st1) rq)) in
        match snd (network (calls st1) rq) with
        | Fetch.Rejected _ => (Throw CRMRequestError, st2)
        | Fetch.Resolved response =>
            match Fetch.json response with
            | Some data =>
                if Fetch.ok response then (Return data, st2)
                else (Throw CRMRequestError, st2)
            | None => (Throw CRMRequestError, st2)
            end
        end
    end.
Proof.
  unfold createZohoLead, try_catch, bind.
  destruct (acquire st) as [[accessToken | e] st1]; cbn; [|reflexivity].
  unfold fetch.
  destruct (network (calls st1) (leadRequest env accessToken leadData))
    as [elapsed [reason | response]]; cbn; [reflexivity|].
  unfold Response_json. destruct (Fetch.json response) as [data|]; cbn; [|reflexivity].
  destruct (Fetch.ok response); cbn; [reflexivity|].
  unfold prop. destruct (Js.get data "message"); reflexivity.
Qed.

(** X5. Whatever goes wrong in [createZohoLead] (no token, network
    error, a body that is not JSON, a status that is no success), the
    error it throws is the CRM error. *)
Theorem submit_throws_only_crm_error (leadData : LeadRecord) (st : State)
    (error : Error) :
  fst (submit leadData st) = Throw error -> error = CRMRequestError.
Proof.
  rewrite createZohoLead_unfold.
  destruct (acquire st) as [[accessToken | e] st1]; cbn.
  - destruct (snd (network (calls st1) (leadRequest env accessToken leadData)))
      as [reason | response]; cbn; [now intros [= <-]|].
    destruct (Fetch.json response) as [data|]; cbn; [|now intros [= <-]].
    destruct (Fetch.ok response); cbn; [discriminate | now intros [= <-]].
  - now intros [= <-].
Qed.

(** X6. [createZohoLead] sends nothing to the CRM when no token could be
    had, and otherwise sends exactly one request, once: the lead, alone
    in its envelope, under the token just obtained. *)
Theorem submit_sends_the_lead_once (leadData : LeadRecord) (st : State) :
  (forall error, fst (acquire st) = Throw error ->
     calls (snd (submit leadData st)) = calls (snd (acquire st))) /\
  (forall accessToken, fst (acquire st) = Return accessToken ->
     calls (snd (submit leadData st))
       = (calls (snd (acquire st)) ++ [leadRequest env accessToken leadData])%list /\
     Fetch.body (leadRequest env accessToken leadData) = Fetch.JsonData [leadData] /\
     In ("Authorization", "Zoho-oauthtoken " +:+ Js.ToString accessToken)
        (Fetch.headers (leadRequest env accessToken leadData))).
Proof.
  rewrite createZohoLead_unfold.
  destruct (acquire st) as [[tok | e] st1]; cbn [fst snd]; split;
    try discriminate.
  - intros accessToken [= <-]. split; [|split; [reflexivity | now left]].
    cbn zeta.
    destruct (snd (network (calls st1) (leadRequest env tok leadData)))
      as [reason | response]; [reflexivity|].
    destruct (Fetch.json response) as [data|]; [|reflexivity].
    destruct (Fetch.ok response); reflexivity.
  - intros error _. reflexivity.
Qed.

(** X7. [createZohoLead] returns a body exactly when a token was had and
    the CRM answered the lead with a success status and that JSON body. *)
Theorem submit_returns_only_success_bodies (leadData : LeadRecord) (st : State)
    (zohoResponse : Js.value) :
  fst (submit leadData st) = Return zohoResponse <->
  exists accessToken response,
    fst (acquire st) = Return accessToken /\
    snd (network (calls (snd (acquire st))) (leadRequest env accessToken leadData))
      = Fetch.Resolved response /\
    Fetch.ok response = true /\
    Fetch.json response = Some zohoResponse.
Proof.
  rewrite createZohoLead_unfold.
  destruct (acquire st) as [[tok | e] st1]; cbn [fst snd].
  - cbn zeta.
    destruct (snd (network (calls st1) (leadRequest env tok leadData)))
      as [reason | response] eqn:N.
    + split; [discriminate|]. intros (a & r & [= <-] & Hr & _). congruence.
    + destruct (Fetch.json response) as [data|] eqn:J.
      * destruct (Fetch.ok response) eqn:O; cbn.
        -- split.
           ++ intros [= <-]. exists tok, response. auto.
           ++ intros (a & r & [= <-] & Hr & _ & Hj). congruence.
        -- split; [discriminate|].
           intros (a & r & [= <-] & Hr & Ho & _). congruence.
      * split; [discriminate|].
        intros (a & r & [= <-] & Hr & _ & Hj). congruence.
  - split; [discriminate|]. intros (a & r & Ha & _). discriminate.
Qed.

End MoreTokenProperties.

(** An exchange answered 400, on a cold start. *)
Lemma acquire_throws_only_authentication_error_witness :
  fst (Demo.acquire Demo.tokenRefused Sample.unauthorized (Demo.coldStart 1000))
    = Throw AuthenticationError /\
  accessTokenCache
    (snd (Demo.acquire Demo.tokenRefused Sample.unauthorized (Demo.coldStart 1000)))
    = initialCache.
Proof.
  split; [reflexivity|].
  apply (acquire_throws_only_authentication_error Demo.env
           (Demo.network Demo.tokenRefused Sample.unauthorized) Demo.StringToNumber
           (Demo.coldStart 1000) AuthenticationError).
  reflexivity.
Defined.

(** A 200 with an error body: [undefined] is returned, and asked for anew. *)
Lemma falsy_token_is_returned_and_never_served_witness :
  fst (Demo.acquire Sample.tokenMissing Sample.unauthorized (Demo.coldStart 1000))
    = Return Js.VUndefined /\
  calls (snd (Demo.acquire Sample.tokenMissing Sample.unauthorized
                (snd (Demo.acquire Sample.tokenMissing Sample.unauthorized
                        (Demo.coldStart 1000)))))
    = [tokenRequest Demo.env; tokenRequest Demo.env].
Proof.
  destruct (falsy_token_is_returned_and_never_served Demo.env
              (Demo.network Sample.tokenMissing Sample.unauthorized)
              Demo.StringToNumber (Demo.coldStart 1000) Js.VUndefined Js.VUndefined
              eq_refl eq_refl eq_refl) as (Hret & _ & Hlater).
  split; [exact Hret|].
  exact (Hlater _ eq_refl).
Defined.

(** A token granted without [expires_in]. *)
Lemma token_without_lifetime_is_never_served_witness :
  let grant := (120, Fetch.Resolved {|
                  Fetch.status := 200;
                  Fetch.json := Some (Js.VObj [("access_token", Js.VStr "1000.tok")]) |}) in
  fst (Demo.acquire grant Sample.unauthorized (Demo.coldStart 1000))
    = Return (Js.VStr "1000.tok") /\
  expires (accessTokenCache
             (snd (Demo.acquire grant Sample.unauthorized (Demo.coldStart 1000))))
    = Js.NaN.
Proof.
  intros grant.
  destruct (token_without_lifetime_is_never_served Demo.env
              (Demo.network grant Sample.unauthorized)
              Demo.StringToNumber (Demo.coldStart 1000) (Js.VStr "1000.tok")
              Js.VUndefined eq_refl eq_refl eq_refl) as (Hret & Hnan & _).
  split; [exact Hret | exact Hnan].
Defined.

(** A token granted for 30 seconds is asked for again at once. *)
Lemma short_lived_token_is_never_served_witness :
  calls (snd (Demo.acquire (Demo.tokenGranted "1000.tok" 30) Sample.unauthorized
                (snd (Demo.acquire (Demo.tokenGranted "1000.tok" 30) Sample.unauthorized
                        (Demo.coldStart 1000)))))
    = [tokenRequest Demo.env; tokenRequest Demo.env].
Proof.
  apply (short_lived_token_is_never_served Demo.env
           (Demo.network (Demo.tokenGranted "1000.tok" 30) Sample.unauthorized)
           Demo.StringToNumber (Demo.coldStart 1000) (Js.VStr "1000.tok") 30);
    [reflexivity | reflexivity | lia | reflexivity | vm_compute; discriminate].
Defined.

(** A 401 from the CRM. *)
Lemma submit_throws_only_crm_error_witness :
  fst (Demo.submit (Demo.tokenGranted "1000.tok" 3600) Sample.unauthorized
         (mapFormDataToZohoLead (Demo.form [("name", "Jane Doe")]) None)
         (Demo.warm 2000))
    = Throw {| message := "Failed to create lead in Zoho CRM" |} /\
  {| message := "Failed to create lead in Zoho CRM" |} = CRMRequestError.
Proof.
  split; [reflexivity|].
  apply (submit_throws_only_crm_error Demo.env
           (Demo.network (Demo.tokenGranted "1000.tok" 3600) Sample.unauthorized)
           Demo.StringToNumber
           (mapFormDataToZohoLead (Demo.form [("name", "Jane Doe")]) None)
           (Demo.warm 2000) {| message := "Failed to create lead in Zoho CRM" |}).
  reflexivity.
Defined.

(** With a warm cache the lead is the only call; without a token there
    is none after the exchange. *)
Lemma submit_sends_the_lead_once_witness :
  let lead := mapFormDataToZohoLead (Demo.form [("name", "Jane Doe")]) None in
  calls (snd (Demo.submit (Demo.tokenGranted "1000.tok" 3600) Sample.unauthorized
                lead (Demo.warm 2000)))
    = [leadRequest Demo.env (Js.VStr "1000.cached") lead] /\
  calls (snd (Demo.submit Demo.tokenRefused Sample.unauthorized
                lead (Demo.coldStart 1000)))
    = [tokenRequest Demo.env].
Proof.
  intros lead. split.
  - destruct (submit_sends_the_lead_once Demo.env
                (Demo.network (Demo.tokenGranted "1000.tok" 3600) Sample.unauthorized)
                Demo.StringToNumber lead (Demo.warm 2000)) as [_ Hsent].
    destruct (Hsent (Js.VStr "1000.cached") eq_refl) as [Hcalls _]. exact Hcalls.
  - destruct (submit_sends_the_lead_once Demo.env
                (Demo.network Demo.tokenRefused Sample.unauthorized)
                Demo.StringToNumber lead (Demo.coldStart 1000)) as [Hnone _].
    exact (Hnone AuthenticationError eq_refl).
Defined.

(** A lead answered 200 with one entry. *)
Lemma submit_returns_only_success_bodies_witness :
  fst (Demo.submit (Demo.tokenGranted "1000.tok" 3600)
         (Demo.crmAnswers 200 Demo.oneEntry)
         (mapFormDataToZohoLead (Demo.form [("name", "Jane Doe")]) None)
         (Demo.warm 2000))
    = Return Demo.oneEntry.
Proof.
  apply (submit_returns_only_success_bodies Demo.env
           (Demo.network (Demo.tokenGranted "1000.tok" 3600)
              (Demo.crmAnswers 200 Demo.oneEntry))
           Demo.StringToNumber
           (mapFormDataToZohoLead (Demo.form [("name", "Jane Doe")]) None)
           (Demo.warm 2000) Demo.oneEntry).
  exists (Js.VStr "1000.cached"),
    {| Fetch.status := 200; Fetch.json := Some Demo.oneEntry |}.
  repeat split; reflexivity.
Defined.

(** ** The lead mapper, beyond the table *)

Lemma split_head_without (sep : ascii) (s : string) :
  exists piece pieces,
    Str.split sep s = piece :: pieces /\ Str.without sep piece = true.
Proof.
  unfold Str.without. induction s as [|c s (piece & pieces & E & W)]; simpl.
  - exists "", []. auto.
  - destruct (Ascii.eqb c sep) eqn:Hc.
    + exists "", (Str.split sep s). auto.
    + rewrite E. exists (String c piece), pieces. simpl. now rewrite Hc, W.
Qed.

(** A text has no separator, or is cut at its first one. *)
Lemma cut_at_first (sep : ascii) (s : string) :
  Str.without sep s = true \/
  exists first rest, s = first +:+ String sep rest /\ Str.without sep first = true.
Proof.
  unfold Str.without. induction s as [|c s IH]; simpl; [now left|].
  destruct (Ascii.eqb c sep) eqn:Hc.
  - right. apply Ascii.eqb_eq in Hc as ->. exists "", s. auto.
  - destruct IH as [W | (first & rest & -> & W)]; [now left|].
    right. exists (String c first), rest. simpl. now rewrite Hc, W.
Qed.

Lemma lastName_not_empty (rest : string) :
  (if String.eqb rest "" then "User" else rest) <> "".
Proof.
  destruct (String.eqb rest "") eqn:E; [discriminate|]. now apply String.eqb_neq.
Qed.

(** X8. Whatever the name, the first name sent to the CRM has no space
    in it and the last name is never empty. *)
Theorem first_name_has_no_space_and_last_name_is_not_empty
    (formData : gmap string string) (formType : option string) :
  Str.without " " (First_Name (mapFormDataToZohoLead formData formType)) = true /\
  Last_Name (mapFormDataToZohoLead formData formType) <> "".
Proof.
  destruct (mapFormDataToZohoLead_names formData formType) as [-> ->].
  unfold mapFormDataToZohoLead. cbn [First_Name Last_Name].
  split; [|apply lastName_not_empty].
  destruct (split_head_without " "
              (Str.or_default (formData !! "name") "Unknown User"))
    as (piece & pieces & -> & W).
  exact W.
Qed.

(** X9. The name can be read back from the lead: it is the first name
    alone (a name without space, or with nothing after its only space,
    in which cases the last name is the default "User"), or the first
    name, a space and the last name. *)
Theorem name_is_recovered_from_the_lead
    (formData : gmap string string) (formType : option string) :
  let name := Str.or_default (formData !! "name") "Unknown User" in
  let lead := mapFormDataToZohoLead formData formType in
  (name = First_Name lead /\ Last_Name lead = "User") \/
  (name = First_Name lead +:+ " " /\ Last_Name lead = "User") \/
  name = First_Name lead +:+ " " +:+ Last_Name lead.
Proof.
  intros name lead. subst lead.
  destruct (mapFormDataToZohoLead_names formData formType) as [-> ->].
  unfold mapFormDataToZohoLead. cbn [First_Name Last_Name]. fold name.
  destruct (cut_at_first " " name) as [W | (first & rest & E & W)].
  - left. now rewrite (split_without " " name W).
  - right. rewrite E, (split_at_first " " first rest W).
    cbn [hd Str.slice1 tail]. rewrite (join_split " " rest).
    destruct (String.eqb rest "") eqn:R.
    + left. apply String.eqb_eq in R as ->. auto.
    + right. reflexivity.
Qed.

(** X10. The form type decides the source and the status only: the six
    other fields are the same under any two form types; and the phone,
    the company and the description are never the empty text (an empty
    field is sent as [null]). *)
Theorem form_type_leaves_the_other_fields
    (formData : gmap string string) (formType1 formType2 : option string) :
  let lead1 := mapFormDataToZohoLead formData formType1 in
  let lead2 := mapFormDataToZohoLead formData formType2 in
  (First_Name lead1 = First_Name lead2 /\ Last_Name lead1 = Last_Name lead2 /\
   Email lead1 = Email lead2 /\ Phone lead1 = Phone lead2 /\
   Company lead1 = Company lead2 /\ Description lead1 = Description lead2) /\
  Email lead1 = formData !! "email" /\
  Phone lead1 <> Some "" /\ Company lead1 <> Some "" /\ Description lead1 <> Some "".
Proof.
  assert (N : forall o, Str.or_null o <> Some "").
  { intros [s|]; simpl; [|discriminate].
    destruct (String.eqb s "") eqn:E; [discriminate|].
    apply String.eqb_neq in E. congruence. }
  unfold mapFormDataToZohoLead.
  destruct (Str.equals formType1 "contact"), (Str.equals formType1 "newsletter"),
    (Str.equals formType2 "contact"), (Str.equals formType2 "newsletter");
    cbn; repeat split; auto.
Qed.

(** X11. The two mappers of the file agree on every form whose name does
    not start with a space; on a name that does, the axios variant puts
    "Unknown" where the fetch variant puts an empty first name, and they
    agree on the last name. *)
Theorem mappers_differ_on_a_leading_space
    (formData : gmap string string) (formType : option string) :
  ((forall rest, formData !! "name" <> Some (String " " rest)) ->
   Axios.mapFormDataToZohoLead formData formType
   = mapFormDataToZohoLead formData formType) /\
  (forall rest, formData !! "name" = Some (String " " rest) ->
   First_Name (Axios.mapFormDataToZohoLead formData formType) = "Unknown" /\
   First_Name (mapFormDataToZohoLead formData formType) = "" /\
   Last_Name (Axios.mapFormDataToZohoLead formData formType)
   = Last_Name (mapFormDataToZohoLead formData formType)).
Proof.
  split.
  - intros H.
    assert (E : Str.or_default
                  (option_map (fun name => hd "" (Str.split " " name))
                     (formData !! "name")) "Unknown"
                = hd "" (Str.split " "
                           (Str.or_default (formData !! "name") "Unknown User")) /\
                Str.or_default
                  (option_map (fun name => Str.join " " (Str.slice1 (Str.split " " name)))
                     (formData !! "name")) "User"
                = (if String.eqb
                        (Str.join " " (Str.slice1 (Str.split " "
                           (Str.or_default (formData !! "name") "Unknown User")))) ""
                   then "User"
                   else Str.join " " (Str.slice1 (Str.split " "
                           (Str.or_default (formData !! "name") "Unknown User"))))).
    { destruct (formData !! "name") as [[|c s]|]; try (split; reflexivity).
      cbn [option_map Str.or_default String.eqb].
      destruct (Ascii.eqb c " ") eqn:Hc;
        [apply Ascii.eqb_eq in Hc as ->; now contradiction (H s)|].
      cbn [Str.split]. rewrite Hc.
      destruct (split_cons_exists " " s) as (piece & pieces & ->).
      split; reflexivity. }
    destruct E as [E1 E2].
    unfold Axios.mapFormDataToZohoLead, mapFormDataToZohoLead.
    cbn [First_Name Last_Name Email Phone Company Lead_Source Lead_Status Description].
    rewrite E1, E2. reflexivity.
  - intros rest H.
    assert (A : forall ft,
              First_Name (Axios.mapFormDataToZohoLead formData ft)
              = First_Name (Axios.mapFormDataToZohoLead formData None) /\
              Last_Name (Axios.mapFormDataToZohoLead formData ft)
              = Last_Name (Axios.mapFormDataToZohoLead formData None)).
    { intros ft. unfold Axios.mapFormDataToZohoLead.
      destruct (Str.equals ft "contact"), (Str.equals ft "newsletter");
        split; reflexivity. }
    destruct (A formType) as [-> ->].
    destruct (mapFormDataToZohoLead_names formData formType) as [-> ->].
    unfold Axios.mapFormDataToZohoLead, mapFormDataToZohoLead.
    cbn [First_Name Last_Name Str.equals]. rewrite H.
    cbn [option_map Str.or_default String.eqb Str.split Ascii.eqb Bool.eqb].
    cbn [hd Str.slice1 tail]. repeat split; reflexivity.
Qed.

(** " Bob": "Unknown" against the empty first name; "Ann Lee": the same lead. *)
Lemma mappers_differ_on_a_leading_space_witness :
  (First_Name (Axios.mapFormDataToZohoLead (Demo.form [("name", " Bob")]) None)
     = "Unknown" /\
   First_Name (mapFormDataToZohoLead (Demo.form [("name", " Bob")]) None) = "") /\
  Axios.mapFormDataToZohoLead (Demo.form [("name", "Ann Lee")]) (Some "contact")
  = mapFormDataToZohoLead (Demo.form [("name", "Ann Lee")]) (Some "contact").
Proof.
  split.
  - destruct (mappers_differ_on_a_leading_space (Demo.form [("name", " Bob")]) None)
      as [_ H].
    destruct (H "Bob" eq_refl) as (H1 & H2 & _). split; [exact H1 | exact H2].
  - apply (mappers_differ_on_a_leading_space (Demo.form [("name", "Ann Lee")])
             (Some "contact")).
    intros rest. vm_compute. discriminate.
Defined.

(** ** The request parser *)

Lemma fold_insert_lookup (entries : list (string * string))
    (start : gmap string string) (key : string) :
  key <> "__proto__" ->
  fold_left (fun formData '(k, v) =>
               if String.eqb k "__proto__" then formData else <[k := v]> formData)
            entries start !! key
  = match lastValue key entries with
    | Some v => Some v
    | None => start !! key
    end.
Proof.
  intros Hkey.
  revert start. induction entries as [|[k v] entries IH]; intros start; simpl.
  - reflexivity.
  - rewrite IH. destruct (lastValue key entries) as [later|]; [reflexivity|].
    destruct (String.eqb k key) eqn:E.
    + apply String.eqb_eq in E as ->.
      apply String.eqb_neq in Hkey. rewrite Hkey. apply lookup_insert_eq.
    + apply String.eqb_neq in E.
      destruct (String.eqb k "__proto__"); [reflexivity|].
      now apply lookup_insert_ne.
Qed.

(** X12. In a URL-encoded body each field the handler reads has the
    value of its last entry (a repeated field overwrites the earlier
    ones) and is absent when it has no entry; a body that is already an
    object is used as it is. *)
Theorem parseFormData_last_entry_wins
    (URLSearchParams : string -> list (string * string)) (text key : string)
    (fields : gmap string string) :
  In key formFields ->
  parseFormData URLSearchParams (Http.Text text) !! key
    = lastValue key (URLSearchParams text) /\
  ((forall v, ~ In (key, v) (URLSearchParams text)) ->
   parseFormData URLSearchParams (Http.Text text) !! key = None) /\
  parseFormData URLSearchParams (Http.Object fields) = fields.
Proof.
  intros Hfield.
  assert (Hkey : key <> "__proto__").
  { intros ->. cbn in Hfield.
    repeat (destruct Hfield as [Hfield | Hfield]; [discriminate Hfield|]).
    exact Hfield. }
  assert (L : parseFormData URLSearchParams (Http.Text text) !! key
              = lastValue key (URLSearchParams text)).
  { unfold parseFormData. rewrite (fold_insert_lookup _ _ _ Hkey), lookup_empty.
    now destruct (lastValue key (URLSearchParams text)). }
  split; [exact L|]. split; [|reflexivity].
  intros Hno. rewrite L. clear L.
  induction (URLSearchParams text) as [|[k v] entries IH]; simpl; [reflexivity|].
  rewrite IH by (intros w Hw; apply (Hno w); now right).
  destruct (String.eqb k key) eqn:E; [|reflexivity].
  apply String.eqb_eq in E as ->. exfalso. apply (Hno v). now left.
Qed.

(** [name=Ann&email=a%40b.com&name=Bob]: the name is Bob, there is no phone. *)
Lemma parseFormData_last_entry_wins_witness :
  parseFormData Sample.URLSearchParams (Http.Text "name=Ann&email=a%40b.com&name=Bob")
    !! "name" = Some "Bob" /\
  parseFormData Sample.URLSearchParams (Http.Text "name=Ann&email=a%40b.com&name=Bob")
    !! "phone" = None.
Proof.
  split.
  - apply (parseFormData_last_entry_wins Sample.URLSearchParams
             "name=Ann&email=a%40b.com&name=Bob" "name" ∅).
    cbn. auto.
  - apply (parseFormData_last_entry_wins Sample.URLSearchParams
             "name=Ann&email=a%40b.com&name=Bob" "phone" ∅).
    + cbn. auto.
    + intros v [H | [H | [H | []]]]; discriminate.
Defined.

(** ** The validator, message by message *)

Lemma occurrences_app (c : ascii) (s1 s2 : string) :
  occurrences c (s1 +:+ s2) = (occurrences c s1 + occurrences c s2)%nat.
Proof.
  induction s1 as [|c1 s1 IH]; simpl; [reflexivity|]. rewrite IH. lia.
Qed.

Lemma notSpaceOrAt_facts (s : string) :
  Str.all notSpaceOrAt s = true ->
  occurrences "@" s = 0%nat /\ Str.all (fun c => negb (Str.is_white_space c)) s = true.
Proof.
  induction s as [|c s IH]; simpl; [auto|].
  intros [Hc Hs]%andb_prop. destruct (IH Hs) as [-> ->].
  unfold notSpaceOrAt in Hc. apply andb_prop in Hc as [Hw Ha].
  rewrite Hw. apply negb_true_iff in Ha. rewrite Ha. auto.
Qed.

(** X13. An email the validator's pattern accepts has exactly one
    at-sign, no whitespace, and a dot somewhere after the at-sign with
    text on both sides of it. *)
Theorem accepted_email_has_one_at_sign (email : string) :
  Regex.test emailRegex email = true ->
  occurrences "@" email = 1%nat /\
  Str.all (fun c => negb (Str.is_white_space c)) email = true /\
  exists loc dom tld,
    email = loc +:+ "@" +:+ dom +:+ "." +:+ tld /\
    loc <> "" /\ dom <> "" /\ tld <> "" /\ occurrences "@" loc = 0%nat.
Proof.
  intros T. apply emailRegex_spec in T
    as (loc & dom & tld & -> & [Nl Al] & [Nd Ad] & [Nt At']).
  destruct (notSpaceOrAt_facts loc Al) as [Ol Wl].
  destruct (notSpaceOrAt_facts dom Ad) as [Od Wd].
  destruct (notSpaceOrAt_facts tld At') as [Ot Wt].
  split; [|split].
  - rewrite !occurrences_app, Ol, Od, Ot. reflexivity.
  - rewrite !all_app, Wl, Wd, Wt. reflexivity.
  - exists loc, dom, tld. auto.
Qed.

Lemma accepted_email_has_one_at_sign_witness :
  occurrences "@" "jane@co.com" = 1%nat.
Proof.
  apply (accepted_email_has_one_at_sign "jane@co.com"). reflexivity.
Defined.

Lemma messages_in (nameBlank emailBlank invalid : bool) (x : string) :
  In x ((if nameBlank then ["Name is required"] else []) ++
        (if emailBlank then ["Email is required"] else []) ++
        (if invalid then ["Invalid email format"] else []))%list <->
  (nameBlank = true /\ x = "Name is required") \/
  (emailBlank = true /\ x = "Email is required") \/
  (invalid = true /\ x = "Invalid email format").
Proof.
  destruct nameBlank, emailBlank, invalid; cbn [app In]; split; intros H;
    repeat match goal with
           | H : _ \/ _ |- _ => destruct H
           | H : _ /\ _ |- _ => destruct H
           | H : False |- _ => contradiction
           end; subst; try discriminate; auto 6.
Qed.

Lemma blank_iff (field : option string) :
  blank field = true <->
  forall s, field = Some s -> Str.all_white_space s = true.
Proof.
  rewrite blank_spec. destruct field as [s|]; split; auto.
  - now intros H s' [= <-].
  - discriminate.
Qed.

(** X14. Each message has its own condition: "Name is required" when
    the name is absent or blank, "Email is required" when the email is
    absent or blank, "Invalid email format" when the email is there, not
    empty, and not of the pattern.  So an absent or empty email is never
    called invalid, and there are at most three messages. *)
Theorem each_message_has_its_condition (formData : gmap string string) :
  (In "Name is required" (validateFormData formData) <->
   forall name, formData !! "name" = Some name -> Str.all_white_space name = true) /\
  (In "Email is required" (validateFormData formData) <->
   forall email, formData !! "email" = Some email -> Str.all_white_space email = true) /\
  (In "Invalid email format" (validateFormData formData) <->
   exists email, formData !! "email" = Some email /\ email <> "" /\
                 Regex.test emailRegex email = false) /\
  (List.length (validateFormData formData) <= 3)%nat.
Proof.
  set (invalid := match formData !! "email" with
                  | Some email =>
                      negb (String.eqb email "") && negb (Regex.test emailRegex email)
                  | None => false
                  end).
  assert (E : validateFormData formData =
    ((if blank (formData !! "name") then ["Name is required"] else []) ++
     (if blank (formData !! "email") then ["Email is required"] else []) ++
     (if invalid then ["Invalid email format"] else []))%list).
  { rewrite validateFormData_eq. subst invalid.
    destruct (formData !! "email") as [email|]; reflexivity. }
  rewrite E. rewrite !messages_in, <- !blank_iff.
  split; [|split; [|split]].
  - split; [|auto].
    intros [[H _] | [[_ H] | [_ H]]]; [exact H | discriminate H | discriminate H].
  - split; [|auto].
    intros [[_ H] | [[H _] | [_ H]]]; [discriminate H | exact H | discriminate H].
  - split.
    + intros [[_ H] | [[_ H] | [H _]]]; [discriminate H | discriminate H |].
      subst invalid. destruct (formData !! "email") as [email|]; [|discriminate].
      apply andb_prop in H as [Hne Ht]. exists email.
      apply negb_true_iff in Hne, Ht. apply String.eqb_neq in Hne. auto.
    + intros (email & He & Hne & Ht). right. right. split; [|reflexivity].
      subst invalid. rewrite He, Ht. apply String.eqb_neq in Hne. now rewrite Hne.
  - destruct (blank (formData !! "name")), (blank (formData !! "email")), invalid;
      cbn; lia.
Qed.

(** A form with a blank name and the email [not-an-email]. *)
Lemma each_message_has_its_condition_witness :
  In "Invalid email format"
     (validateFormData (Demo.form [("name", " "); ("email", "not-an-email")])).
Proof.
  apply (each_message_has_its_condition
           (Demo.form [("name", " "); ("email", "not-an-email")])).
  exists "not-an-email". split; [reflexivity|]. split; [discriminate | reflexivity].
Defined.

(** X15. The validator trims only to test: a name that starts with a
    space and has something after it passes, and the lead that is sent
    then has an empty first name and, as last name, all that follows
    the space. *)
Theorem leading_space_gives_an_empty_first_name
    (formData : gmap string string) (formType : option string) (rest email : string) :
  formData !! "name" = Some (String " " rest) ->
  Str.all_white_space rest = false ->
  formData !! "email" = Some email ->
  Regex.test emailRegex email = true ->
  validateFormData formData = [] /\
  First_Name (mapFormDataToZohoLead formData formType) = "" /\
  Last_Name (mapFormDataToZohoLead formData formType) = rest.
Proof.
  intros Hn Hr He Ht. split.
  - apply validateFormData_accepts. split.
    + exists (String " " rest). split; [exact Hn|].
      unfold Str.all_white_space in *. simpl. exact Hr.
    + exists email. split; [exact He|]. split; [|now apply emailRegex_spec].
      destruct email as [|c email]; [discriminate|].
      destruct (Str.is_white_space c) eqn:W.
      * now rewrite (emailRegex_rejects_leading_space c email W) in Ht.
      * unfold Str.all_white_space. simpl. now rewrite W.
  - destruct (mapFormDataToZohoLead_names formData formType) as [-> ->].
    unfold mapFormDataToZohoLead. cbn [First_Name Last_Name]. rewrite Hn.
    cbn [Str.or_default String.eqb].
    change (String " " rest) with ("" +:+ String " " rest).
    rewrite (split_at_first " " "" rest eq_refl).
    cbn [hd Str.slice1 tail]. rewrite (join_split " " rest).
    split; [reflexivity|].
    destruct rest; [discriminate | reflexivity].
Qed.

Lemma leading_space_gives_an_empty_first_name_witness :
  validateFormData (Demo.form [("name", " Bob"); ("email", "bob@co.com")]) = [] /\
  First_Name (mapFormDataToZohoLead
                (Demo.form [("name", " Bob"); ("email", "bob@co.com")]) None) = "" /\
  Last_Name (mapFormDataToZohoLead
               (Demo.form [("name", " Bob"); ("email", "bob@co.com")]) None) = "Bob".
Proof.
  apply (leading_space_gives_an_empty_first_name
           (Demo.form [("name", " Bob"); ("email", "bob@co.com")]) None
           "Bob" "bob@co.com"); reflexivity.
Defined.

(** ** The handler, path by path *)

Section MoreHandlerProperties.

Variable env : gmap string string.
Variable network : list Fetch.Request -> Fetch.Request -> Z * Fetch.Outcome.
Variable StringToNumber : string -> Js.number.
Variable URLSearchParams : string -> list (string * string).

Local Abbreviation serve := (handler env network StringToNumber URLSearchParams).
Local Abbreviation parse := (parseFormData URLSearchParams).
Local Abbreviation acquire := (getAccessToken env network StringToNumber).
Local Abbreviation submit := (createZohoLead env network StringToNumber).
Local Abbreviation exchange := (tokenRequest env).

(** The lead [handler] builds from a request. *)
Local Abbreviation leadOf req :=
  (mapFormDataToZohoLead (parse (Http.body req))
     (Some (Str.or_default (parse (Http.body req) !! "form_type") "general"))).

Lemma acknowledge_state (zohoResponse : Js.value) (st : State) :
  snd (acknowledge zohoResponse st) = st.
Proof.
  unfold acknowledge, bind, prop, prop0, ret, throw, Date_now.
  destruct (Js.get zohoResponse "data") as [data|]; [|reflexivity]. cbn.
  destruct (Js.truthy data); cbn; [|reflexivity].
  destruct (Js.get0 data) as [first|]; [|reflexivity]. cbn.
  destruct (Js.truthy first); cbn; [|reflexivity].
  destruct (Js.get first "status") as [status|]; [|reflexivity]. cbn.
  destruct (Js.strict_eq_str status "success"); cbn; [|reflexivity].
  destruct (Js.get first "details") as [details|]; [|reflexivity]. cbn.
  destruct (Js.get details "id"); reflexivity.
Qed.

Lemma acknowledge_result (zohoResponse : Js.value) (st : State) (res : Http.Res) :
  fst (acknowledge zohoResponse st) = Return res ->
  exists id,
    res = respond 200
            (Http.Success "Lead created successfully in Zoho CRM" id (clock st)).
Proof.
  unfold acknowledge, bind, prop, prop0, ret, throw, Date_now.
  destruct (Js.get zohoResponse "data") as [data|]; [|discriminate]. cbn.
  destruct (Js.truthy data); cbn; [|discriminate].
  destruct (Js.get0 data) as [first|]; [|discriminate]. cbn.
  destruct (Js.truthy first); cbn; [|discriminate].
  destruct (Js.get first "status") as [status|]; [|discriminate]. cbn.
  destruct (Js.strict_eq_str status "success"); cbn; [|discriminate].
  destruct (Js.get first "details") as [details|]; [|discriminate]. cbn.
  destruct (Js.get details "id") as [id|]; [|discriminate]. cbn.
  intros [= <-]. now exists id.
Qed.

(** What a valid POST comes to, in terms of the submitter and of
    [acknowledge]. *)
Lemma handler_valid_post (req : Http.Req) (st : State) :
  Http.method req = "POST" ->
  validateFormData (parse (Http.body req)) = [] ->
  serve req st =
    match submit (leadOf req) st with
    | (Throw error, st1) =>
        (respond 500
           (Http.Failure
              (if String.eqb (message error) "" then "An error occurred"
               else message error)
              (clock st1)),
         st1)
    | (Return zohoResponse, st1) =>
        match fst (acknowledge zohoResponse st1) with
        | Return res => (res, st1)
        | Throw error =>
            (respond 500
               (Http.Failure
                  (if String.eqb (message error) "" then "An error occurred"
                   else message error)
                  (clock st1)),
             st1)
        end
    end.
Proof.
  intros Hm Hv.
  rewrite (handler_accepts_valid env network StringToNumber URLSearchParams req st Hm Hv).
  cbn zeta. unfold bind.
  destruct (submit (leadOf req) st) as [[zohoResponse | error] st1]; [|reflexivity].
  pose proof (acknowledge_state zohoResponse st1) as S.
  destruct (acknowledge zohoResponse st1) as [[res | error] st2]; cbn in S |- *;
    now subst st2.
Qed.

(** Every answer is built by [respond], with one of four status codes. *)
Lemma handler_responds (req : Http.Req) (st : State) :
  exists code payload,
    fst (serve req st) = respond code payload /\ knownStatus code = true.
Proof.
  destruct (String.eqb (Http.method req) "OPTIONS") eqn:Ho.
  { unfold handler. rewrite Ho. exists 200, Http.NoBody. auto. }
  destruct (String.eqb (Http.method req) "POST") eqn:Hp.
  2:{ unfold handler. rewrite Ho, Hp. cbn. eexists 405, _. auto. }
  apply String.eqb_eq in Hp.
  destruct (validateFormData (parse (Http.body req))) as [|e errors] eqn:Hv.
  - rewrite (handler_valid_post req st Hp Hv).
    destruct (submit (leadOf req) st) as [[zohoResponse | error] st1];
      [|eexists 500, _; cbn; auto].
    destruct (fst (acknowledge zohoResponse st1)) as [res | error] eqn:A;
      [|eexists 500, _; cbn; auto].
    destruct (acknowledge_result zohoResponse st1 res A) as [id ->].
    eexists 200, _. cbn. auto.
  - rewrite (handler_rejects_invalid env network StringToNumber URLSearchParams req st Hp)
      by (rewrite Hv; discriminate).
    eexists 400, _. cbn. auto.
Qed.

(** X16. Every answer of the handler, whatever the method, the body and
    the outcome, carries the three CORS headers. *)
Theorem every_response_carries_cors_headers (req : Http.Req) (st : State) :
  Http.headers (fst (serve req st)) !! "Access-Control-Allow-Origin" = Some "*" /\
  Http.headers (fst (serve req st)) !! "Access-Control-Allow-Methods"
    = Some "POST, OPTIONS" /\
  Http.headers (fst (serve req st)) !! "Access-Control-Allow-Headers"
    = Some "Content-Type".
Proof.
  destruct (handler_responds req st) as (code & payload & -> & _).
  cbn [respond Http.headers]. unfold addCORSHeaders.
  split; [|split].
  - rewrite !lookup_insert_ne by discriminate. apply lookup_insert_eq.
  - rewrite lookup_insert_ne by discriminate. apply lookup_insert_eq.
  - apply lookup_insert_eq.
Qed.

(** X17. The status of every answer is 200, 400, 405 or 500. *)
Theorem status_is_one_of_four (req : Http.Req) (st : State) :
  knownStatus (Http.statusCode (fst (serve req st))) = true.
Proof.
  destruct (handler_responds req st) as (code & payload & -> & K). exact K.
Qed.

(** X18. Only a POST reaches Zoho: any other method is answered at once,
    OPTIONS with an empty 200 and the rest with 405 "Method not
    allowed", leaving the cache, the clock and the calls as they were.
    The method is compared as it is written. *)
Theorem only_post_reaches_zoho (req : Http.Req) (st : State) :
  Http.method req <> "POST" ->
  snd (serve req st) = st /\
  (Http.method req = "OPTIONS" -> fst (serve req st) = respond 200 Http.NoBody) /\
  (Http.method req <> "OPTIONS" ->
   fst (serve req st) = respond 405 (Http.Failure "Method not allowed" (clock st))).
Proof.
  intros Hp. apply String.eqb_neq in Hp. unfold handler. rewrite Hp.
  destruct (String.eqb (Http.method req) "OPTIONS") eqn:Ho; cbn;
    [apply String.eqb_eq in Ho | apply String.eqb_neq in Ho];
    repeat split; auto; intros H; contradiction.
Qed.

Lemma handler_valid_post_state (req : Http.Req) (st : State) :
  Http.method req = "POST" ->
  validateFormData (parse (Http.body req)) = [] ->
  snd (serve req st) = snd (submit (leadOf req) st).
Proof.
  intros Hm Hv. rewrite (handler_valid_post req st Hm Hv).
  destruct (submit (leadOf req) st) as [[zohoResponse | error] st1]; [|reflexivity].
  destruct (fst (acknowledge zohoResponse st1)); reflexivity.
Qed.

Lemma submit_after_acquire (leadData : LeadRecord) (st : State) :
  match fst (acquire st) with
  | Throw _ => submit leadData st = (Throw CRMRequestError, snd (acquire st))
  | Return accessToken =>
      snd (submit leadData st)
      = afterFetch (snd (acquire st)) (leadRequest env accessToken leadData)
          (fst (network (calls (snd (acquire st)))
                  (leadRequest env accessToken leadData))) /\
      forall error, fst (submit leadData st) = Throw error -> error = CRMRequestError
  end.
Proof.
  rewrite (createZohoLead_unfold env network StringToNumber).
  destruct (acquire st) as [[tok | e] st1]; cbn [fst snd]; [|reflexivity].
  cbn zeta.
  destruct (snd (network (calls st1) (leadRequest env tok leadData)))
    as [reason | response]; cbn; [split; [reflexivity | now intros e [= <-]]|].
  destruct (Fetch.json response) as [data|];
    [|split; [reflexivity | now intros e [= <-]]].
  destruct (Fetch.ok response); cbn;
    split; try reflexivity; [discriminate | now intros e [= <-]].
Qed.

(** X19. A valid POST whose submission fails, for any reason, is
    answered 500 with the text of the CRM error. *)
Theorem failed_submission_is_reported_as_crm_error (req : Http.Req) (st : State)
    (error : Error) :
  Http.method req = "POST" ->
  validateFormData (parse (Http.body req)) = [] ->
  fst (submit (leadOf req) st) = Throw error ->
  serve req st =
    (respond 500
       (Http.Failure "Failed to create lead in Zoho CRM"
          (clock (snd (submit (leadOf req) st)))),
     snd (submit (leadOf req) st)).
Proof.
  intros Hm Hv Ht. rewrite (handler_valid_post req st Hm Hv).
  pose proof (submit_after_acquire (leadOf req) st) as S.
  destruct (fst (acquire st)) as [tok | e].
  - destruct S as [_ S]. specialize (S error Ht). subst error.
    destruct (submit (leadOf req) st) as [[zohoResponse | e] st1];
      [discriminate|]. cbn in Ht. now injection Ht as ->.
  - rewrite S. reflexivity.
Qed.

(** X20. When no token can be had, a valid POST is answered 500 with the
    text of the CRM error, not of the authentication error, and the
    token exchange is the only call that was made: nothing goes to the
    CRM. *)
Theorem authentication_failure_is_reported_as_crm_error (req : Http.Req) (st : State)
    (error : Error) :
  Http.method req = "POST" ->
  validateFormData (parse (Http.body req)) = [] ->
  fst (acquire st) = Throw error ->
  serve req st =
    (respond 500
       (Http.Failure "Failed to create lead in Zoho CRM" (clock (snd (acquire st)))),
     snd (acquire st)) /\
  calls (snd (acquire st)) = (calls st ++ [exchange])%list /\
  "Failed to create lead in Zoho CRM" <> message AuthenticationError.
Proof.
  intros Hm Hv Ht. split; [|split; [|discriminate]].
  - rewrite (handler_valid_post req st Hm Hv).
    pose proof (submit_after_acquire (leadOf req) st) as S.
    rewrite Ht in S. rewrite S. reflexivity.
  - destruct (cachedToken (accessTokenCache st) (clock st)) as [cached|] eqn:M.
    + rewrite (getAccessToken_hit env network StringToNumber st cached M) in Ht.
      discriminate.
    + rewrite (getAccessToken_miss env network StringToNumber st M). cbn zeta.
      destruct (granted (snd (network (calls st) exchange))) as [[a e]|]; reflexivity.
Qed.

(** X21. When the CRM acknowledges the lead (first entry with the status
    "success") but sends no details with it, reading the identifier
    fails and the caller is answered 500, though the lead was created. *)
Theorem acknowledged_lead_without_details_is_500 (req : Http.Req) (st st' : State)
    (zohoResponse first details : Js.value) :
  Http.method req = "POST" ->
  validateFormData (parse (Http.body req)) = [] ->
  submit (leadOf req) st = (Return zohoResponse, st') ->
  firstEntrySucceeded zohoResponse first ->
  Js.get first "details" = Some details ->
  Js.nullish details = true ->
  Http.statusCode (fst (serve req st)) = 500 /\ snd (serve req st) = st'.
Proof.
  intros Hm Hv Hs (data & Hd & Td & Hf & Tf & status & Hst & Es) Hdet Hn.
  rewrite (handler_valid_post req st Hm Hv), Hs.
  assert (A : fst (acknowledge zohoResponse st')
              = Throw {| message := "Cannot read properties of "
                                    +:+ Js.ToString details +:+ " (reading 'id')" |}).
  { unfold acknowledge, bind, prop, prop0, ret, throw, Date_now.
    rewrite Hd. cbn. rewrite Td, Hf. cbn. rewrite Tf, Hst. cbn. rewrite Es.
    rewrite Hdet. cbn. destruct details; try discriminate; reflexivity. }
  rewrite A. split; reflexivity.
Qed.

Lemma acquire_calls (st : State) :
  exists extra,
    calls (snd (acquire st)) = (calls st ++ extra)%list /\ (List.length extra <= 1)%nat.
Proof.
  destruct (cachedToken (accessTokenCache st) (clock st)) as [cached|] eqn:M.
  - rewrite (getAccessToken_hit env network StringToNumber st cached M).
    exists []. cbn. rewrite app_nil_r. auto.
  - exists [exchange]. split; [|cbn; lia].
    rewrite (getAccessToken_miss env network StringToNumber st M). cbn zeta.
    destruct (granted (snd (network (calls st) exchange))) as [[a e]|]; reflexivity.
Qed.

(** X22. Whatever the request, the handler makes at most two outbound
    calls (there is no retry) and keeps the record of the earlier ones. *)
Theorem handler_makes_at_most_two_calls (req : Http.Req) (st : State) :
  exists extra,
    calls (snd (serve req st)) = (calls st ++ extra)%list /\
    (List.length extra <= 2)%nat.
Proof.
  assert (Same : snd (serve req st) = st ->
                 exists extra, calls (snd (serve req st)) = (calls st ++ extra)%list /\
                               (List.length extra <= 2)%nat).
  { intros ->. exists []. rewrite app_nil_r. cbn. split; [reflexivity | lia]. }
  destruct (String.eqb (Http.method req) "POST") eqn:Hp.
  2:{ apply Same. unfold handler. rewrite Hp.
      destruct (String.eqb (Http.method req) "OPTIONS"); reflexivity. }
  apply String.eqb_eq in Hp.
  destruct (validateFormData (parse (Http.body req))) as [|e errors] eqn:Hv.
  - rewrite (handler_valid_post_state req st Hp Hv).
    destruct (acquire_calls st) as (extra & E & L).
    pose proof (submit_after_acquire (leadOf req) st) as S.
    destruct (fst (acquire st)) as [tok | err].
    + destruct S as [-> _]. cbn [afterFetch calls]. rewrite E, <- app_assoc.
      eexists. split; [reflexivity|]. rewrite length_app. cbn. lia.
    + rewrite S. cbn [snd]. exists extra. split; [exact E | lia].
  - apply Same.
    rewrite (handler_rejects_invalid env network StringToNumber URLSearchParams req st Hp)
      by (rewrite Hv; discriminate).
    reflexivity.
Qed.

(** X23. While the cached token is valid, a valid POST makes one call
    only, the lead under that token, and leaves the cache as it is: the
    token is shared by the requests that follow its exchange. *)
Theorem valid_token_is_reused_across_requests (req : Http.Req) (st : State)
    (cached : Js.value) :
  Http.method req = "POST" ->
  validateFormData (parse (Http.body req)) = [] ->
  cachedToken (accessTokenCache st) (clock st) = Some cached ->
  calls (snd (serve req st))
    = (calls st ++ [leadRequest env cached (leadOf req)])%list /\
  accessTokenCache (snd (serve req st)) = accessTokenCache st.
Proof.
  intros Hm Hv Hc. rewrite (handler_valid_post_state req st Hm Hv).
  pose proof (submit_after_acquire (leadOf req) st) as S.
  rewrite (getAccessToken_hit env network StringToNumber st cached Hc) in S.
  cbn [fst snd] in S. destruct S as [-> _]. split; reflexivity.
Qed.

(** X26. A POST is answered 200 only when the form passed validation,
    the submitter returned a body, and that body acknowledges the lead;
    the [leadId] of the answer is the identifier read from it. *)
Theorem success_is_answered_only_for_an_acknowledged_lead (req : Http.Req)
    (st : State) :
  Http.method req = "POST" ->
  Http.statusCode (fst (serve req st)) = 200 ->
  validateFormData (parse (Http.body req)) = [] /\
  exists zohoResponse id,
    fst (submit (leadOf req) st) = Return zohoResponse /\
    createdLead zohoResponse id /\
    fst (serve req st) =
      respond 200
        (Http.Success "Lead created successfully in Zoho CRM" id
           (clock (snd (serve req st)))).
Proof.
  intros Hm. destruct (validateFormData (parse (Http.body req))) as [|e errors] eqn:Hv.
  - rewrite (handler_valid_post req st Hm Hv).
    destruct (submit (leadOf req) st) as [[zohoResponse | error] st1];
      [|cbn; discriminate].
    destruct (acknowledge zohoResponse st1) as [[res | error] st2] eqn:A;
      [|cbn; discriminate].
    destruct (acknowledge_returns zohoResponse st1 st2 res A) as [id C].
    rewrite (acknowledge_created zohoResponse id st1 C) in A.
    injection A as <- <-. cbn. intros _. split; [reflexivity|].
    exists zohoResponse, id. auto.
  - rewrite (handler_rejects_invalid env network StringToNumber URLSearchParams req st Hm)
      by (rewrite Hv; discriminate).
    cbn. discriminate.
Qed.

End MoreHandlerProperties.

(** ** The handler of the axios variant *)

Section AxiosHandlerProperties.

Variable URLSearchParams : string -> list (string * string).
Variable createZohoLead : LeadRecord -> Async Js.value.

Local Abbreviation serve := (Axios.handler URLSearchParams createZohoLead).
Local Abbreviation parse := (parseFormData URLSearchParams).
Local Abbreviation leadOf req :=
  (Axios.mapFormDataToZohoLead (parse (Http.body req))
     (Some (Str.or_default (parse (Http.body req) !! "form_type") "general"))).

Lemma leadCreated_yes (zohoResponse first : Js.value) (st : State) :
  firstEntrySucceeded zohoResponse first ->
  Axios.leadCreated zohoResponse st = (Return true, st).
Proof.
  intros (data & Hd & Td & Hf & Tf & status & Hs & Es).
  unfold Axios.leadCreated, bind, prop, prop0, ret.
  rewrite Hd. cbn. rewrite Td, Hf. cbn. rewrite Tf, Hs. cbn. now rewrite Es.
Qed.

Lemma leadCreated_cases (zohoResponse : Js.value) (st : State) :
  (snd (Axios.leadCreated zohoResponse st) = st) /\
  (fst (Axios.leadCreated zohoResponse st) = Return true ->
   exists first, firstEntrySucceeded zohoResponse first) /\
  (Js.nullish zohoResponse = false ->
   (forall first, ~ firstEntrySucceeded zohoResponse first) ->
   fst (Axios.leadCreated zohoResponse st) = Return false).
Proof.
  unfold Axios.leadCreated, bind, prop, prop0, ret.
  destruct (Js.get zohoResponse "data") as [data|] eqn:Hd; cbn.
  2:{ repeat split; try discriminate. intros Hn. destruct zohoResponse; discriminate. }
  destruct (Js.truthy data) eqn:Td; cbn; [|repeat split; discriminate].
  destruct (Js.get0 data) as [first|] eqn:Hf; cbn;
    [|destruct data; discriminate].
  destruct (Js.truthy first) eqn:Tf; cbn; [|repeat split; discriminate].
  destruct (Js.get first "status") as [status|] eqn:Hs; cbn;
    [|destruct first; discriminate].
  destruct (Js.strict_eq_str status "success") eqn:Es; repeat split; try discriminate.
  - intros _. exists first, data. repeat split; auto. exists status. auto.
  - intros _ Hno. exfalso. apply (Hno first). exists data. repeat split; auto.
    exists status. auto.
Qed.

(** X24. In the axios variant, after a valid POST whose submission
    returned the body [zohoResponse], the answer is 200 exactly when the
    first entry of [zohoResponse.data] has the status "success"; the
    details are never read, so the answer carries no lead identifier and
    a lead acknowledged without details is still a success.  When the
    body is not [null] and the entry is missing or its status is
    another, the answer is 500 with the text of the CRM error; the body
    [null] is answered 500 as well. *)
Theorem axios_handler_reads_the_status_only (req : Http.Req) (st st' : State)
    (zohoResponse : Js.value) :
  Http.method req = "POST" ->
  validateFormData (parse (Http.body req)) = [] ->
  createZohoLead (leadOf req) st = (Return zohoResponse, st') ->
  (Http.statusCode (fst (serve req st)) = 200 <->
   exists first, firstEntrySucceeded zohoResponse first) /\
  (forall first, firstEntrySucceeded zohoResponse first ->
   serve req st =
     (respond 200
        (Http.Success "Lead created successfully in Zoho CRM" Js.VUndefined (clock st')),
      st')) /\
  (Js.nullish zohoResponse = false ->
   (forall first, ~ firstEntrySucceeded zohoResponse first) ->
   serve req st =
     (respond 500 (Http.Failure "Failed to create lead in Zoho CRM" (clock st')), st')) /\
  (Js.nullish zohoResponse = true ->
   Http.statusCode (fst (serve req st)) = 500 /\ snd (serve req st) = st').
Proof.
  intros Hm Hv Hs.
  assert (U : serve req st =
    match Axios.leadCreated zohoResponse st' with
    | (Return true, st2) =>
        (Axios.sendSuccessResponse (Some "Lead created successfully in Zoho CRM")
           (clock st2), st2)
    | (Return false, st2) =>
        (Axios.sendErrorResponse {| message := "Failed to create lead in Zoho CRM" |}
           None (clock st2), st2)
    | (Throw error, st2) => (Axios.sendErrorResponse error None (clock st2), st2)
    end).
  { unfold Axios.handler, Axios.handlePost. rewrite Hm, Hv.
    change (String.eqb "POST" "OPTIONS") with false.
    change (String.eqb "POST" "POST") with true. cbn [negb List.length Nat.ltb Nat.leb].
    unfold bind. rewrite Hs.
    destruct (Axios.leadCreated zohoResponse st') as [[[|] | error] st2]; reflexivity. }
  rewrite U. clear U.
  destruct (leadCreated_cases zohoResponse st') as (Hstate & Hyes & Hno).
  split; [|split; [|split]].
  - split.
    + destruct (Axios.leadCreated zohoResponse st') as [[[|] | error] st2];
        cbn; try discriminate. intros _. now apply Hyes.
    + intros [first F]. now rewrite (leadCreated_yes zohoResponse first st' F).
  - intros first F. now rewrite (leadCreated_yes zohoResponse first st' F).
  - intros Hn Hnone. specialize (Hno Hn Hnone).
    destruct (Axios.leadCreated zohoResponse st') as [[[|] | error] st2];
      cbn in Hno, Hstate; try discriminate. now subst st2.
  - intros Hn. unfold Axios.leadCreated, bind, prop.
    destruct zohoResponse; try discriminate Hn; split; reflexivity.
Qed.

End AxiosHandlerProperties.

(** X25. Before anything is submitted the two handlers of the file answer
    alike: for a method other than POST and for a form the validator
    rejects, the axios variant gives the very answer of the fetch
    variant and likewise leaves the state alone. *)
Theorem handlers_agree_before_submission
    (env : gmap string string)
    (network : list Fetch.Request -> Fetch.Request -> Z * Fetch.Outcome)
    (StringToNumber : string -> Js.number)
    (URLSearchParams : string -> list (string * string))
    (createZohoLead2 : LeadRecord -> Async Js.value)
    (req : Http.Req) (st : State) :
  Http.method req <> "POST" \/
  validateFormData (parseFormData URLSearchParams (Http.body req)) <> [] ->
  Axios.handler URLSearchParams createZohoLead2 req st
  = handler env network StringToNumber URLSearchParams req st.
Proof.
  intros H. unfold Axios.handler, handler.
  destruct (String.eqb (Http.method req) "OPTIONS"); [reflexivity|].
  destruct (String.eqb (Http.method req) "POST") eqn:Hp; [|reflexivity].
  destruct H as [H | H]; [apply String.eqb_eq in Hp; contradiction|].
  cbn [negb]. unfold Axios.handlePost, handlePost.
  destruct (validateFormData (parseFormData URLSearchParams (Http.body req)))
    as [|e errors]; [congruence|]. reflexivity.
Qed.

(** * The further properties on concrete runs *)

(** A GET. *)
Lemma only_post_reaches_zoho_witness :
  Demo.serve (Demo.tokenGranted "1000.tok" 3600) (Demo.crmAnswers 200 Demo.oneEntry)
    {| Http.method := "GET"; Http.body := Http.Text "" |} (Demo.coldStart 1000)
  = (respond 405 (Http.Failure "Method not allowed" 1000), Demo.coldStart 1000).
Proof.
  destruct (only_post_reaches_zoho Demo.env
              (Demo.network (Demo.tokenGranted "1000.tok" 3600)
                 (Demo.crmAnswers 200 Demo.oneEntry))
              Demo.StringToNumber Demo.URLSearchParams
              {| Http.method := "GET"; Http.body := Http.Text "" |}
              (Demo.coldStart 1000) ltac:(discriminate)) as (Hst & _ & H405).
  unfold Demo.serve. rewrite (surjective_pairing (handler _ _ _ _ _ _)).
  rewrite Hst, (H405 ltac:(discriminate)). reflexivity.
Defined.

(** Jane's form, a fresh token, and a CRM that answers 401. *)
Lemma failed_submission_is_reported_as_crm_error_witness :
  fst (Demo.serve (Demo.tokenGranted "1000.tok" 3600) Sample.unauthorized
         Demo.jane (Demo.coldStart 1000))
  = respond 500 (Http.Failure "Failed to create lead in Zoho CRM" 1370).
Proof.
  unfold Demo.serve.
  rewrite (failed_submission_is_reported_as_crm_error Demo.env
             (Demo.network (Demo.tokenGranted "1000.tok" 3600) Sample.unauthorized)
             Demo.StringToNumber Demo.URLSearchParams Demo.jane (Demo.coldStart 1000)
             CRMRequestError eq_refl ltac:(vm_compute; reflexivity)
             ltac:(vm_compute; reflexivity)).
  vm_compute. reflexivity.
Defined.

(** Jane's form and an authorization server that refuses. *)
Lemma authentication_failure_is_reported_as_crm_error_witness :
  Demo.serve Demo.tokenRefused (Demo.crmAnswers 200 Demo.oneEntry)
    Demo.jane (Demo.coldStart 1000)
  = (respond 500 (Http.Failure "Failed to create lead in Zoho CRM" 1090),
     {| accessTokenCache := initialCache; clock := 1090;
        calls := [tokenRequest Demo.env] |}).
Proof.
  destruct (authentication_failure_is_reported_as_crm_error Demo.env
              (Demo.network Demo.tokenRefused (Demo.crmAnswers 200 Demo.oneEntry))
              Demo.StringToNumber Demo.URLSearchParams Demo.jane (Demo.coldStart 1000)
              AuthenticationError eq_refl ltac:(vm_compute; reflexivity) eq_refl)
    as (H & _).
  exact H.
Defined.

(** Jane's form, acknowledged without details. *)
Lemma acknowledged_lead_without_details_is_500_witness :
  Http.statusCode
    (fst (Demo.serve (Demo.tokenGranted "1000.tok" 3600)
            (Demo.crmAnswers 200 Sample.noDetails) Demo.jane (Demo.coldStart 1000)))
  = 500.
Proof.
  apply (acknowledged_lead_without_details_is_500 Demo.env
           (Demo.network (Demo.tokenGranted "1000.tok" 3600)
              (Demo.crmAnswers 200 Sample.noDetails))
           Demo.StringToNumber Demo.URLSearchParams Demo.jane (Demo.coldStart 1000)
           (snd (Demo.submit (Demo.tokenGranted "1000.tok" 3600)
                   (Demo.crmAnswers 200 Sample.noDetails)
                   (mapFormDataToZohoLead
                      (Demo.form [("name", "Jane Doe"); ("email", "jane@co.com");
                                  ("form_type", "contact")])
                      (Some "contact"))
                   (Demo.coldStart 1000)))
           Sample.noDetails
           (Js.VObj [("code", Js.VStr "SUCCESS"); ("status", Js.VStr "success")])
           Js.VUndefined).
  - reflexivity.
  - vm_compute. reflexivity.
  - vm_compute. reflexivity.
  - exists (Js.VArr [Js.VObj [("code", Js.VStr "SUCCESS");
                              ("status", Js.VStr "success")]]).
    repeat split. exists (Js.VStr "success"). split; reflexivity.
  - reflexivity.
  - reflexivity.
Defined.

(** Jane's form while the cached token is valid: the lead is the only call. *)
Lemma valid_token_is_reused_across_requests_witness :
  calls (snd (Demo.serve (Demo.tokenGranted "1000.tok" 3600)
                (Demo.crmAnswers 200 Demo.oneEntry) Demo.jane (Demo.warm 2000)))
  = [leadRequest Demo.env (Js.VStr "1000.cached")
       (mapFormDataToZohoLead
          (Demo.form [("name", "Jane Doe"); ("email", "jane@co.com");
                      ("form_type", "contact")])
          (Some "contact"))].
Proof.
  destruct (valid_token_is_reused_across_requests Demo.env
              (Demo.network (Demo.tokenGranted "1000.tok" 3600)
                 (Demo.crmAnswers 200 Demo.oneEntry))
              Demo.StringToNumber Demo.URLSearchParams Demo.jane (Demo.warm 2000)
              (Js.VStr "1000.cached") eq_refl ltac:(vm_compute; reflexivity) eq_refl)
    as [H _].
  exact H.
Defined.

(** Jane's form in the axios variant, acknowledged without details: 200. *)
Lemma axios_handler_reads_the_status_only_witness :
  fst (Axios.handler Demo.URLSearchParams (Sample.answering Sample.noDetails)
         Demo.jane (Demo.coldStart 1000))
  = respond 200
      (Http.Success "Lead created successfully in Zoho CRM" Js.VUndefined 1250).
Proof.
  destruct (axios_handler_reads_the_status_only Demo.URLSearchParams
              (Sample.answering Sample.noDetails) Demo.jane (Demo.coldStart 1000)
              _ Sample.noDetails eq_refl ltac:(vm_compute; reflexivity) eq_refl)
    as (_ & Hyes & _).
  rewrite (Hyes (Js.VObj [("code", Js.VStr "SUCCESS"); ("status", Js.VStr "success")]));
    [reflexivity|].
  exists (Js.VArr [Js.VObj [("code", Js.VStr "SUCCESS");
                            ("status", Js.VStr "success")]]).
  repeat split. exists (Js.VStr "success"). split; reflexivity.
Defined.

(** A form without a name, in both variants. *)
Lemma handlers_agree_before_submission_witness :
  Axios.handler Demo.URLSearchParams (Sample.answering Demo.oneEntry)
    (Demo.post [("email", "x@y.com")]) (Demo.coldStart 1000)
  = Demo.serve (Demo.tokenGranted "1000.tok" 3600) (Demo.crmAnswers 200 Demo.oneEntry)
      (Demo.post [("email", "x@y.com")]) (Demo.coldStart 1000).
Proof.
  apply (handlers_agree_before_submission Demo.env
           (Demo.network (Demo.tokenGranted "1000.tok" 3600)
              (Demo.crmAnswers 200 Demo.oneEntry))
           Demo.StringToNumber Demo.URLSearchParams (Sample.answering Demo.oneEntry)
           (Demo.post [("email", "x@y.com")]) (Demo.coldStart 1000)).
  right. vm_compute. discriminate.
Defined.

(** Jane's form, created under the identifier 42. *)
Lemma success_is_answered_only_for_an_acknowledged_lead_witness :
  exists zohoResponse id,
    fst (Demo.submit (Demo.tokenGranted "1000.tok" 3600)
           (Demo.crmAnswers 200 Demo.oneEntry)
           (mapFormDataToZohoLead
              (parseFormData Demo.URLSearchParams (Http.body Demo.jane))
              (Some (Str.or_default
                       (parseFormData Demo.URLSearchParams (Http.body Demo.jane)
                          !! "form_type") "general")))
           (Demo.coldStart 1000))
      = Return zohoResponse /\
    createdLead zohoResponse id.
Proof.
  destruct (success_is_answered_only_for_an_acknowledged_lead Demo.env
              (Demo.network (Demo.tokenGranted "1000.tok" 3600)
                 (Demo.crmAnswers 200 Demo.oneEntry))
              Demo.StringToNumber Demo.URLSearchParams Demo.jane (Demo.coldStart 1000)
              eq_refl ltac:(vm_compute; reflexivity))
    as (_ & zohoResponse & id & Hs & Hc & _).
  exists zohoResponse, id. split; [exact Hs | exact Hc].
Defined.
